(** * csv_to_json_parser.py: row normalisation and the conversion driver

    A shallow embedding of [src/csv_to_json_parser.py].  The script reads
    the rows of a [csv.DictReader], builds one [record] dict per row and
    dumps the list of records as JSON.

    Conventions of the embedding.
    - A Python [str] is a [string]; a character is a code point below 256,
      and text with a code point from 256 on is outside the embedding.
      The character classes of the library routines ([\d], [\s],
      whitespace stripping) are the library's classes restricted to that
      range: there the decimal digits are ['0'..'9'] alone, while beyond
      it the library also takes the digits and spaces of other scripts.
      A statement about text that holds no digit, or a character the
      date pattern cannot take, is therefore made for ASCII characters.
    - A row is the dict a [DictReader] yields, seen through its string
      keys: a present cell holds text, or Python's [None] when the line
      was shorter than the header ([restval]).
    - Exceptions are explicit: a computation returns [Ok v] or [Raise e].
    - The library routines the script calls ([float], [int],
      [datetime.strptime], [isoformat], [json.dump]) are modelled after
      their CPython 3 behaviour.
    - Opening and decoding the files is left out: a run starts from the
      rows the reader yields and ends with the text written to the
      output file, or with the exception that left the loop. *)

From Stdlib Require Import ZArith QArith Qround Qpower Ascii String List Lia.
From Stdlib Require Import DecimalString DecimalPos.
From stdpp Require Import gmap strings list.

Close Scope Q_scope.

(** ** Python values, exceptions *)

Inductive exn := ValueError | TypeError | OverflowError.

Inductive result (A : Type) :=
| Ok (a : A)
| Raise (e : exn).
Arguments Ok {A} a.
Arguments Raise {A} e.

Global Instance result_ret : MRet result := fun _ a => Ok a.

Global Instance result_bind : MBind result := fun _ _ f m =>
  match m with
  | Ok a => f a
  | Raise e => Raise e
  end.

Inductive value :=
| VNone
| VBool (b : bool)
| VInt (n : Z)
| VStr (s : string).

(** [bool(v)]: Python truthiness. *)
Definition truthy (v : value) : bool :=
  match v with
  | VNone => false
  | VBool b => b
  | VInt n => negb (n =? 0)%Z
  | VStr s => negb (String.eqb s "")
  end.

(** [a or b] *)
Definition py_or (a b : value) : value := if truthy a then a else b.

(** [a and b] *)
Definition py_and (a b : value) : value := if truthy a then b else a.

(** ** Input rows *)

(** A cell of a [DictReader] row under a column name. *)
Inductive cell :=
| Missing            (* None: the line ran out before this column *)
| Text (s : string).

Definition value_of_cell (c : cell) : value :=
  match c with
  | Missing => VNone
  | Text s => VStr s
  end.

(** [row.get(key, default)] *)
Definition get (row : gmap string cell) (key : string) (default : value) : value :=
  match row !! key with
  | Some c => value_of_cell c
  | None => default
  end.

(** ** Characters *)

Definition code (c : ascii) : Z := Z.of_N (N_of_ascii c).

Definition in_range (lo hi : Z) (c : ascii) : bool :=
  ((lo <=? code c) && (code c <=? hi))%Z.

(** ['0'..'9'].  These are the decimal digits below code point 256; the
    digits of other scripts, which [float], [int] and [\d] take as well,
    lie beyond the texts of this embedding. *)
Definition is_digit (c : ascii) : bool := in_range 48 57 c.

Definition digit_val (c : ascii) : Z := (code c - 48)%Z.

(** C's [Py_ISSPACE]: tab, newline, vertical tab, form feed, return, space. *)
Definition Py_ISSPACE (c : ascii) : bool :=
  in_range 9 13 c || (code c =? 32)%Z.

(** [Py_UNICODE_ISSPACE] below 256: the above, the separators 0x1C..0x1F,
    NEL (0x85) and the no-break space (0xA0). *)
Definition Py_UNICODE_ISSPACE (c : ascii) : bool :=
  in_range 9 13 c || in_range 28 32 c || (code c =? 133)%Z || (code c =? 160)%Z.

Definition Py_TOLOWER (c : ascii) : ascii :=
  if in_range 65 90 c then ascii_of_N (N_of_ascii c + 32) else c.

(** ** [float(...)]: text to binary64 *)

(** A binary64 value: [(-1)^neg * m * 2^e], an infinity, or a NaN. *)
Inductive double :=
| Finite (neg : bool) (m : Z) (e : Z)
| Inf (neg : bool)
| NaN.

Definition round_half_even (num den : Z) : Z :=
  let q := (num / den)%Z in
  let r := (num mod den)%Z in
  if (2 * r <? den)%Z then q
  else if (2 * r =? den)%Z then (if Z.even q then q else q + 1)%Z
  else (q + 1)%Z.

(** [num / (den * 2^e)] as a fraction of integers. *)
Definition scaled (num den e : Z) : Z * Z :=
  if (0 <=? e)%Z then (num, den * 2 ^ e)%Z else (num * 2 ^ (- e), den)%Z.

(** The binary64 nearest to [num / den] (ties to even), for [0 <= num] and
    [0 < den]: 53 bits of significand, exponents from -1074 to 971,
    infinity past the largest finite value. *)
Definition binary64_of_ratio (neg : bool) (num den : Z) : double :=
  if (num =? 0)%Z then Finite neg 0 0 else
  let e0 := (Z.log2 num - Z.log2 den - 52)%Z in
  let '(n0, d0) := scaled num den e0 in
  let e1 := if (n0 / d0 <? 2 ^ 52)%Z then (e0 - 1)%Z else e0 in
  let e := Z.max e1 (-1074) in
  let '(n, d) := scaled num den e in
  let m := round_half_even n d in
  if ((971 <? e) || ((e =? 971) && (m =? 2 ^ 53)))%Z then Inf neg
  else Finite neg m e.

(** The binary64 nearest to [m * 10^e]. *)
Definition binary64_of_decimal (neg : bool) (m e : Z) : double :=
  if (0 <=? e)%Z then binary64_of_ratio neg (m * 10 ^ e) 1
  else binary64_of_ratio neg m (10 ^ (- e)).

(** [_PyUnicode_TransformDecimalAndSpaceToASCII]: an ASCII string is
    returned as it is; otherwise code points below 127 are kept, spaces
    become [' '], and the first other character becomes ['?'] and ends
    the text (no code point from 127 to 255 is a decimal digit). *)
Fixpoint is_ascii (s : string) : bool :=
  match s with
  | EmptyString => true
  | String c r => (code c <? 128)%Z && is_ascii r
  end.

Fixpoint transform_chars (s : string) : string :=
  match s with
  | EmptyString => EmptyString
  | String c r =>
      if (code c <? 127)%Z then String c (transform_chars r)
      else if Py_UNICODE_ISSPACE c then String " " (transform_chars r)
      else String "?" EmptyString
  end.

Definition transform_decimal_and_space (s : string) : string :=
  if is_ascii s then s else transform_chars s.

(** Stripping as [float_from_string_inner] does it: all leading spaces,
    then trailing spaces while more than one character is left. *)
Fixpoint lstrip (s : string) : string :=
  match s with
  | EmptyString => EmptyString
  | String c r => if Py_ISSPACE c then lstrip r else s
  end.

Fixpoint rstrip_all (s : string) : string :=
  match s with
  | EmptyString => EmptyString
  | String c r =>
      match rstrip_all r with
      | EmptyString => if Py_ISSPACE c then EmptyString else String c EmptyString
      | t => String c t
      end
  end.

Definition rstrip (s : string) : string :=
  match s with
  | EmptyString => EmptyString
  | String c r => String c (rstrip_all r)
  end.

(** [_Py_string_to_number_with_underscores]: an underscore must stand
    between two digits; the text without underscores is what is parsed. *)
Fixpoint has_underscore (s : string) : bool :=
  match s with
  | EmptyString => false
  | String c r => Ascii.eqb c "_" || has_underscore r
  end.

Fixpoint drop_underscores (prev : ascii) (s : string) : option string :=
  match s with
  | EmptyString => if Ascii.eqb prev "_" then None else Some EmptyString
  | String c r =>
      if Ascii.eqb c "_" then
        if is_digit prev then drop_underscores c r else None
      else if Ascii.eqb prev "_" && negb (is_digit c) then None
      else String c <$> drop_underscores c r
  end.

(** [_Py_dg_strtod]: sign, digits, point and digits, exponent. *)

(** Reads a run of digits onto [acc]; returns the value, the number of
    digits read and the rest of the text. *)
Fixpoint read_digits (acc : Z) (n : nat) (s : string) : Z * nat * string :=
  match s with
  | EmptyString => (acc, n, s)
  | String c r =>
      if is_digit c then read_digits (10 * acc + digit_val c)%Z (S n) r
      else (acc, n, s)
  end.

Definition read_sign (s : string) : bool * string :=
  match s with
  | String "-" r => (true, r)
  | String "+" r => (false, r)
  | _ => (false, s)
  end.

(** The exponent is taken only when a digit follows [e] and its sign. *)
Definition read_exponent (s : string) : Z * string :=
  match s with
  | String c r =>
      if Ascii.eqb c "e" || Ascii.eqb c "E" then
        let '(esign, r1) := read_sign r in
        let '(abs_exp, nd, r2) := read_digits 0 0 r1 in
        match nd with
        | O => (0, s)%Z
        | S _ => (if esign then - abs_exp else abs_exp, r2)%Z
        end
      else (0%Z, s)
  | EmptyString => (0%Z, s)
  end.

(** Returns the rounded value and the unread rest, or [None] on a parse
    error (no digit in the significand). *)
Definition dg_strtod (s00 : string) : option (double * string) :=
  let '(sign, s) := read_sign s00 in
  let '(ipart, nd0, s) := read_digits 0 0 s in
  let '(m, fraclen, s) :=
    match s with
    | String "." r => read_digits ipart 0 r
    | _ => (ipart, O, s)
    end in
  match (nd0 + fraclen)%nat with
  | O => None
  | S _ =>
      let '(e, s) := read_exponent s in
      Some (binary64_of_decimal sign m (e - Z.of_nat fraclen), s)
  end.

(** [case_insensitive_match]: [t] is a lower-case prefix of [s] up to
    case; returns what follows it. *)
Fixpoint case_insensitive_match (s t : string) : option string :=
  match t with
  | EmptyString => Some s
  | String ct t' =>
      match s with
      | String cs s' =>
          if Ascii.eqb (Py_TOLOWER cs) ct then case_insensitive_match s' t' else None
      | EmptyString => None
      end
  end.

(** [_Py_parse_inf_or_nan] *)
Definition parse_inf_or_nan (p : string) : option (double * string) :=
  let '(negate, s) := read_sign p in
  match case_insensitive_match s "inf" with
  | Some s =>
      match case_insensitive_match s "inity" with
      | Some s => Some (Inf negate, s)
      | None => Some (Inf negate, s)
      end
  | None =>
      match case_insensitive_match s "nan" with
      | Some s => Some (NaN, s)
      | None => None
      end
  end.

(** [_PyOS_ascii_strtod] *)
Definition ascii_strtod (nptr : string) : option (double * string) :=
  match dg_strtod nptr with
  | Some r => Some r
  | None => parse_inf_or_nan nptr
  end.

(** [float_from_string_inner]: the whole stripped text must be read. *)
Definition float_from_string_inner (s : string) : result double :=
  match ascii_strtod (rstrip (lstrip s)) with
  | Some (x, EmptyString) => Ok x
  | _ => Raise ValueError
  end.

(** [PyFloat_FromString] *)
Definition float_from_string (v : string) : result double :=
  let s := transform_decimal_and_space v in
  if has_underscore s then
    match drop_underscores "000" s with
    | Some dup => float_from_string_inner dup
    | None => Raise ValueError
    end
  else float_from_string_inner s.

(** [float(v)] *)
Definition py_float (v : value) : result double :=
  match v with
  | VStr s => float_from_string s
  | VInt n =>
      match binary64_of_ratio (n <? 0)%Z (Z.abs n) 1 with
      | Inf _ => Raise OverflowError
      | x => Ok x
      end
  | VBool b => Ok (if b then Finite false (2 ^ 52) (-52) else Finite false 0 0)
  | VNone => Raise TypeError
  end.

(** [int(x)] of a float: the integer part, towards zero; an infinity
    raises [OverflowError], a NaN [ValueError]. *)
Definition py_int (x : double) : result Z :=
  match x with
  | Finite neg m e =>
      let a := if (0 <=? e)%Z then (m * 2 ^ e)%Z else (m / 2 ^ (- e))%Z in
      Ok (if neg then (- a)%Z else a)
  | Inf _ => Raise OverflowError
  | NaN => Raise ValueError
  end.

Definition int_float (v : value) : result Z := x ← py_float v; py_int x.

(** ** [datetime.strptime(..., "%Y-%m-%d %H:%M")] and [isoformat] *)

(** The regular expressions [_strptime] builds its pattern from, with the
    backtracking matcher of [re]: alternatives are tried from the left,
    [+] is greedy, and a later failure resumes the latest choice. *)
Inductive regex :=
| Chr (c : ascii)
| Cls (p : ascii -> bool)
| Seq (r1 r2 : regex)
| Alt (r1 r2 : regex)
| Plus (p : ascii -> bool)
| Group (name : string) (r : regex).

Definition groups := list (string * string).

Section Matcher.
Context {R : Type}.

(** One or more characters of class [p] were read as [m]; reads more
    first, and hands over to [k] where that fails. *)
Fixpoint match_more (p : ascii -> bool) (m s : string)
    (k : string -> string -> option R) : option R :=
  match s with
  | String c r =>
      if p c then
        match match_more p (m +:+ String c EmptyString) r k with
        | Some x => Some x
        | None => k m s
        end
      else k m s
  | EmptyString => k m s
  end.

(** [k] receives the text matched, the rest and the groups so far. *)
Fixpoint rmatch (r : regex) (s : string) (g : groups)
    (k : string -> string -> groups -> option R) : option R :=
  match r with
  | Chr c =>
      match s with
      | String c' s' => if Ascii.eqb c' c then k (String c' EmptyString) s' g else None
      | EmptyString => None
      end
  | Cls p =>
      match s with
      | String c' s' => if p c' then k (String c' EmptyString) s' g else None
      | EmptyString => None
      end
  | Seq r1 r2 =>
      rmatch r1 s g (fun m1 s1 g1 =>
        rmatch r2 s1 g1 (fun m2 s2 g2 => k (m1 +:+ m2) s2 g2))
  | Alt r1 r2 =>
      match rmatch r1 s g k with
      | Some x => Some x
      | None => rmatch r2 s g k
      end
  | Plus p =>
      match s with
      | String c' s' =>
          if p c' then match_more p (String c' EmptyString) s' (fun m s1 => k m s1 g)
          else None
      | EmptyString => None
      end
  | Group name r1 =>
      rmatch r1 s g (fun m s1 g1 => k m s1 ((name, m) :: g1))
  end.
End Matcher.

(** [re.match]: the groups and the unmatched rest of the text. *)
Definition re_match (r : regex) (s : string) : option (groups * string) :=
  rmatch r s [] (fun _ rest g => Some (g, rest)).

Definition chr_in (lo hi : ascii) : regex := Cls (in_range (code lo) (code hi)).
Definition digit : regex := Cls is_digit.

(** [r rs...] in sequence, and [r|rs...]. *)
Fixpoint seq (r : regex) (rs : list regex) : regex :=
  match rs with
  | [] => r
  | r' :: rs' => Seq r (seq r' rs')
  end.

Fixpoint alt (r : regex) (rs : list regex) : regex :=
  match rs with
  | [] => r
  | r' :: rs' => Alt r (alt r' rs')
  end.

(** [(?P<Y>\d\d\d\d)] *)
Definition re_Y : regex := Group "Y" (seq digit [digit; digit; digit]).
(** [(?P<m>1[0-2]|0[1-9]|[1-9])] *)
Definition re_m : regex :=
  Group "m" (alt (Seq (Chr "1") (chr_in "0" "2")) [Seq (Chr "0") (chr_in "1" "9"); chr_in "1" "9"]).
(** [(?P<d>3[0-1]|[1-2]\d|0[1-9]|[1-9]| [1-9])] *)
Definition re_d : regex :=
  Group "d" (alt (Seq (Chr "3") (chr_in "0" "1")) [Seq (chr_in "1" "2") digit;
                  Seq (Chr "0") (chr_in "1" "9"); chr_in "1" "9";
                  Seq (Chr " ") (chr_in "1" "9")]).
(** [(?P<H>2[0-3]|[0-1]\d|\d)] *)
Definition re_H : regex :=
  Group "H" (alt (Seq (Chr "2") (chr_in "0" "3")) [Seq (chr_in "0" "1") digit; digit]).
(** [(?P<M>[0-5]\d|\d)] *)
Definition re_M : regex :=
  Group "M" (alt (Seq (chr_in "0" "5") digit) [digit]).

(** The pattern of ["%Y-%m-%d %H:%M"]; the blank of the format is [\s+]. *)
Definition format_regex : regex :=
  seq re_Y [Chr "-"; re_m; Chr "-"; re_d; Plus Py_UNICODE_ISSPACE; re_H; Chr ":"; re_M].

Fixpoint group (g : groups) (name : string) : string :=
  match g with
  | [] => EmptyString
  | (n, m) :: g' => if String.eqb n name then m else group g' name
  end.

(** [int(text)] for the text of a group: digits, after blanks. *)
Definition int_of_group (s : string) : Z :=
  let '(n, _, _) := read_digits 0 0 (lstrip s) in n.

Record datetime := {
  year : Z; month : Z; day : Z; hour : Z; minute : Z; second : Z
}.

Definition is_leap (y : Z) : bool :=
  ((y mod 4 =? 0) && (negb (y mod 100 =? 0) || (y mod 400 =? 0)))%Z.

Definition days_in_month (y m : Z) : Z :=
  if (m =? 2)%Z then (if is_leap y then 29 else 28)%Z
  else if ((m =? 4) || (m =? 6) || (m =? 9) || (m =? 11))%Z then 30%Z
  else 31%Z.

(** The range checks of the [date] and [datetime] constructors. *)
Definition check_date_fields (y m d : Z) : bool :=
  ((1 <=? y) && (y <=? 9999) && (1 <=? m) && (m <=? 12) &&
   (1 <=? d) && (d <=? days_in_month y m))%Z.

Definition check_time_fields (h mi s : Z) : bool :=
  ((0 <=? h) && (h <=? 23) && (0 <=? mi) && (mi <=? 59) && (0 <=? s) && (s <=? 59))%Z.

Definition strptime (data_string : value) : result datetime :=
  match data_string with
  | VStr s =>
      match re_match format_regex s with
      | None => Raise ValueError              (* does not match format *)
      | Some (found, EmptyString) =>
          let y := int_of_group (group found "Y") in
          let m := int_of_group (group found "m") in
          let d := int_of_group (group found "d") in
          let h := int_of_group (group found "H") in
          let mi := int_of_group (group found "M") in
          if check_date_fields y m d && check_time_fields h mi 0 then
            Ok {| year := y; month := m; day := d; hour := h; minute := mi; second := 0 |}
          else Raise ValueError
      | Some (_, String _ _) => Raise ValueError  (* unconverted data remains *)
      end
  | _ => Raise TypeError
  end.

Definition string_of_Z (n : Z) : string := NilZero.string_of_int (Z.to_int n).

Fixpoint zeros (n : nat) : string :=
  match n with
  | O => EmptyString
  | S n' => String "0" (zeros n')
  end.

(** ["%0<w>d" % n] for [0 <= n] *)
Definition zero_pad (w : nat) (n : Z) : string :=
  let s := string_of_Z n in
  zeros (w - String.length s) +:+ s.

(** [isoformat()] of a datetime without microseconds or zone. *)
Definition isoformat (dt : datetime) : string :=
  zero_pad 4 (year dt) +:+ "-" +:+ zero_pad 2 (month dt) +:+ "-" +:+ zero_pad 2 (day dt)
  +:+ "T" +:+ zero_pad 2 (hour dt) +:+ ":" +:+ zero_pad 2 (minute dt) +:+ ":"
  +:+ zero_pad 2 (second dt).

(** ** The loop body: one row to one record *)

(** A [dict] with its keys in insertion order. *)
Definition dict := list (string * value).

(** [d[key] = v]: an existing key keeps its place. *)
Fixpoint dict_set (d : dict) (key : string) (v : value) : dict :=
  match d with
  | [] => [(key, v)]
  | (k, x) :: d' =>
      if String.eqb k key then (k, v) :: d' else (k, x) :: dict_set d' key v
  end.

Fixpoint dict_get (d : dict) (key : string) : option value :=
  match d with
  | [] => None
  | (k, x) :: d' => if String.eqb k key then Some x else dict_get d' key
  end.

(** [row.get(key, "") or ""] *)
Definition text_field (row : gmap string cell) (key : string) : value :=
  py_or (get row key (VStr "")) (VStr "").

(** Lines 15-43.  The entries of the dict display are evaluated in
    order; only the last one, [formSubmissions], can raise, and then no
    record is built. *)
Definition normalize (row : gmap string cell) : result dict :=
  formSubmissions ←
    int_float (py_or (get row "Number of Form Submissions" (VInt 0)) (VInt 0));
  let record := [
    ("id", text_field row "Record ID");
    ("firstName", text_field row "First Name");
    ("lastName", text_field row "Last Name");
    ("email", text_field row "Email");
    ("phone", text_field row "Phone Number");
    ("company", text_field row "Company Name");
    ("industry", text_field row "Your Industry");
    ("state", text_field row "State/Region");
    ("createDate", VStr "");
    ("trafficSource", text_field row "Latest Traffic Source");
    ("trafficSourceDetail", text_field row "Latest Traffic Source Drill-Down 1");
    ("originalTrafficSource", text_field row "Original Traffic Source");
    ("formType", text_field row "Record source detail 1");
    ("isComplete",
       py_and (VBool (truthy (get row "Company Name" (VStr ""))))
              (VBool (truthy (get row "Your Industry" (VStr "")))));
    ("recordSource", text_field row "Record source");
    ("message", text_field row "Message");
    ("leadStatus", text_field row "Lead Status");
    ("formSubmissions", VInt formSubmissions)
  ] in
  let raw_date := get row "Create Date" (VStr "") in
  mret match strptime raw_date with
       | Ok parsed_date =>
           dict_set record "createDate" (VStr (isoformat parsed_date +:+ "Z"))
       | Raise _ => dict_set record "createDate" (VStr "")
       end.

(** ** The driver *)

(** [for row in reader: ... data.append(record)]; a raise leaves the loop
    and ends the run. *)
Fixpoint loop (reader : list (gmap string cell)) (data : list dict)
    : result (list dict) :=
  match reader with
  | [] => Ok data
  | row :: rest =>
      match normalize row with
      | Ok record => loop rest (data ++ [record])
      | Raise e => Raise e
      end
  end.

(** ** [json.dump(data, json_file, indent=2)] *)

Definition quote : ascii := "034".
Definition backslash : ascii := "092".

Definition hex_digit (n : Z) : ascii :=
  if (n <? 10)%Z then ascii_of_N (Z.to_N (48 + n)) else ascii_of_N (Z.to_N (87 + n)).

(** [ensure_ascii]: everything outside [' '..'~'], the quote and the
    backslash are escaped. *)
Definition escape_char (c : ascii) : string :=
  if Ascii.eqb c quote then String backslash (String quote EmptyString)
  else if Ascii.eqb c backslash then String backslash (String backslash EmptyString)
  else if Ascii.eqb c "008" then String backslash "b"
  else if Ascii.eqb c "012" then String backslash "f"
  else if Ascii.eqb c "010" then String backslash "n"
  else if Ascii.eqb c "013" then String backslash "r"
  else if Ascii.eqb c "009" then String backslash "t"
  else if in_range 32 126 c then String c EmptyString
  else String backslash
         (String "u" (String "0" (String "0"
           (String (hex_digit (code c / 16)) (String (hex_digit (code c mod 16)) EmptyString))))).

Fixpoint escape (s : string) : string :=
  match s with
  | EmptyString => EmptyString
  | String c r => escape_char c +:+ escape r
  end.

Definition json_string (s : string) : string :=
  String quote (escape s) +:+ String quote EmptyString.

Definition json_value (v : value) : string :=
  match v with
  | VNone => "null"
  | VBool true => "true"
  | VBool false => "false"
  | VInt n => string_of_Z n
  | VStr s => json_string s
  end.

Fixpoint spaces (n : nat) : string :=
  match n with
  | O => EmptyString
  | S n' => String " " (spaces n')
  end.

Definition newline_indent (level : nat) : string :=
  String "010" (spaces (2 * level)).

Fixpoint join (sep : string) (l : list string) : string :=
  match l with
  | [] => EmptyString
  | [x] => x
  | x :: l' => x +:+ sep +:+ join sep l'
  end.

Definition json_object (level : nat) (d : dict) : string :=
  match d with
  | [] => "{}"
  | _ =>
      "{" +:+ newline_indent (S level)
      +:+ join ("," +:+ newline_indent (S level))
               (map (fun kv => json_string kv.1 +:+ ": " +:+ json_value kv.2) d)
      +:+ newline_indent level +:+ "}"
  end.

Definition json_dumps (data : list dict) : string :=
  match data with
  | [] => "[]"
  | _ =>
      "[" +:+ newline_indent 1
      +:+ join ("," +:+ newline_indent 1) (map (json_object 1) data)
      +:+ newline_indent 0 +:+ "]"
  end.

(** ** A run of the script *)

(** The run as a function: the text written, or the exception. *)
Definition main (reader : list (gmap string cell)) : result string :=
  data ← loop reader []; mret (json_dumps data).

(** ** Vocabulary of the statements *)

(** The plain text fields of a record with the column each is read from
    (lines 16-23, 25-28 and 30-32). *)
Definition text_fields : list (string * string) := [
  ("id", "Record ID");
  ("firstName", "First Name");
  ("lastName", "Last Name");
  ("email", "Email");
  ("phone", "Phone Number");
  ("company", "Company Name");
  ("industry", "Your Industry");
  ("state", "State/Region");
  ("trafficSource", "Latest Traffic Source");
  ("trafficSourceDetail", "Latest Traffic Source Drill-Down 1");
  ("originalTrafficSource", "Original Traffic Source");
  ("formType", "Record source detail 1");
  ("recordSource", "Record source");
  ("message", "Message");
  ("leadStatus", "Lead Status")
].

(** The keys of a record, in the order of the dict display. *)
Definition record_keys : list string := [
  "id"; "firstName"; "lastName"; "email"; "phone"; "company"; "industry";
  "state"; "createDate"; "trafficSource"; "trafficSourceDetail";
  "originalTrafficSource"; "formType"; "isComplete"; "recordSource";
  "message"; "leadStatus"; "formSubmissions"
].

(** The cell under [key] is present and holds non-empty text. *)
Definition filled (row : gmap string cell) (key : string) : Prop :=
  exists s, row !! key = Some (Text s) /\ s <> EmptyString.

(** The cell under [key] is absent, [None] or the empty text. *)
Definition blank (row : gmap string cell) (key : string) : Prop :=
  row !! key = None \/ row !! key = Some Missing \/ row !! key = Some (Text EmptyString).






(** [YYYY-MM-DD HH:MM], and the ISO text of the same date and time. *)
Definition pattern_text (y mo d h mi : Z) : string :=
  zero_pad 4 y +:+ "-" +:+ zero_pad 2 mo +:+ "-" +:+ zero_pad 2 d +:+ " "
  +:+ zero_pad 2 h +:+ ":" +:+ zero_pad 2 mi.

Definition iso_text (y mo d h mi : Z) : string :=
  zero_pad 4 y +:+ "-" +:+ zero_pad 2 mo +:+ "-" +:+ zero_pad 2 d +:+ "T"
  +:+ zero_pad 2 h +:+ ":" +:+ zero_pad 2 mi +:+ ":00Z".

(** The record a row yields once [formSubmissions] is known. *)
Definition record_of (row : gmap string cell) (n : Z) : dict := [
  ("id", text_field row "Record ID");
  ("firstName", text_field row "First Name");
  ("lastName", text_field row "Last Name");
  ("email", text_field row "Email");
  ("phone", text_field row "Phone Number");
  ("company", text_field row "Company Name");
  ("industry", text_field row "Your Industry");
  ("state", text_field row "State/Region");
  ("createDate",
     VStr match strptime (get row "Create Date" (VStr EmptyString)) with
          | Ok dt => isoformat dt +:+ "Z"
          | Raise _ => EmptyString
          end);
  ("trafficSource", text_field row "Latest Traffic Source");
  ("trafficSourceDetail", text_field row "Latest Traffic Source Drill-Down 1");
  ("originalTrafficSource", text_field row "Original Traffic Source");
  ("formType", text_field row "Record source detail 1");
  ("isComplete",
     VBool (truthy (get row "Company Name" (VStr EmptyString)) &&
            truthy (get row "Your Industry" (VStr EmptyString))));
  ("recordSource", text_field row "Record source");
  ("message", text_field row "Message");
  ("leadStatus", text_field row "Lead Status");
  ("formSubmissions", VInt n)
].

Definition form_submissions (row : gmap string cell) : result Z :=
  int_float (py_or (get row "Number of Form Submissions" (VInt 0)) (VInt 0)).

(** The row yields a record whose formSubmissions is [n]. *)
Definition yields_formSubmissions (row : gmap string cell) (n : Z) : Prop :=
  exists record, normalize row = Ok record /\
    dict_get record "formSubmissions" = Some (VInt n).

(** The "Number of Form Submissions" cell is blank, or text that [float]
    reads as a finite number. *)
Definition numeric_or_blank (row : gmap string cell) : Prop :=
  blank row "Number of Form Submissions" \/
  exists s neg m e,
    row !! "Number of Form Submissions" = Some (Text s) /\
    float_from_string s = Ok (Finite neg m e).

(** The checks behind the facts about [zero_pad] that are settled by
    evaluation over a range. *)
Definition pad2_ok (n : Z) : bool :=
  match zero_pad 2 n with
  | String a (String b EmptyString) =>
      is_digit a && is_digit b && (int_of_group (zero_pad 2 n) =? n)%Z
  | _ => false
  end.

Definition pad4_ok (n : Z) : bool :=
  match zero_pad 4 n with
  | String a (String b (String c (String d EmptyString))) =>
      is_digit a && is_digit b && is_digit c && is_digit d &&
      (int_of_group (zero_pad 4 n) =? n)%Z
  | _ => false
  end.

(** A row of the export: record 42, Ann of Acme. *)
Definition sample_row : gmap string cell :=
  <["Record ID" := Text "42"]> (<["First Name" := Text "Ann"]>
  (<["Company Name" := Text "Acme"]> (<["Your Industry" := Text "Tech"]>
  (<["Create Date" := Text "2023-01-01 09:00"]>
  (<["Number of Form Submissions" := Text "2"]> ∅))))).

(** ** Vocabulary of the further properties *)

(** The columns the script reads (lines 16-33 and 38). *)
Definition columns : list string :=
  map snd text_fields ++ ["Create Date"; "Number of Form Submissions"].

(** A cell that counts as blank: [None] or the empty text. *)
Definition blank_cell (c : cell) : Prop := c = Missing \/ c = Text EmptyString.

(** Every character of [s] satisfies [p]. *)
Fixpoint string_forall (p : ascii -> bool) (s : string) : bool :=
  match s with
  | EmptyString => true
  | String c r => p c && string_forall p r
  end.

(** The characters a text matched by [r] can hold. *)
Fixpoint alphabet (r : regex) (c : ascii) : bool :=
  match r with
  | Chr c' => Ascii.eqb c c'
  | Cls p => p c
  | Seq r1 r2 => alphabet r1 c || alphabet r2 c
  | Alt r1 r2 => alphabet r1 c || alphabet r2 c
  | Plus p => p c
  | Group _ r1 => alphabet r1 c
  end.

(** Some character of [s] satisfies [p]. *)
Fixpoint string_exists (p : ascii -> bool) (s : string) : bool :=
  match s with
  | EmptyString => false
  | String c r => p c || string_exists p r
  end.

(** A digit, a hyphen, a colon or white space. *)
Definition date_char (c : ascii) : bool :=
  is_digit c || Ascii.eqb c "-" || Ascii.eqb c ":" || Py_UNICODE_ISSPACE c.

(** An ASCII character the date pattern has no place for: a letter, a
    slash, a point, ... *)
Definition stray_char (c : ascii) : bool :=
  (code c <? 128)%Z && negb (date_char c).

(** A printable ASCII character, from the blank to the tilde. *)
Definition printable (c : ascii) : bool := in_range 32 126 c.

(** A character of the output file: printable, or a line feed. *)
Definition output_char (c : ascii) : bool := printable c || Ascii.eqb c "010".

(** How often [c] occurs in [s]. *)
Fixpoint count_char (c : ascii) (s : string) : nat :=
  match s with
  | EmptyString => 0
  | String c' r => (if Ascii.eqb c' c then 1 else 0) + count_char c r
  end.

(** A character that is neither white space, nor beyond ASCII, nor an
    underscore: text of such characters reaches the parser as it is. *)
Definition plain_char (c : ascii) : bool :=
  negb (Py_ISSPACE c) && (code c <? 128)%Z && negb (Ascii.eqb c "_").

(** Not a digit; not a minus sign. *)
Definition not_digit (c : ascii) : bool := negb (is_digit c).
Definition not_minus (c : ascii) : bool := negb (Ascii.eqb c "-").

(** A number below 100 written with two digits, or as it is. *)
Definition two_digits (pad : bool) (n : Z) : string :=
  if pad then zero_pad 2 n else string_of_Z n.

(** * Properties *)

(** ** Lookups and defaults *)

Lemma truthy_VStr s : truthy (VStr s) = true <-> s <> EmptyString.
Proof.
  destruct s as [|a s]; simpl; split; intros H; try done.
Qed.

Lemma text_field_Text row key s :
  row !! key = Some (Text s) -> text_field row key = VStr s.
Proof.
  intros H. unfold text_field, get, py_or. rewrite H. simpl.
  destruct s; reflexivity.
Qed.

Lemma text_field_blank row key :
  row !! key = None \/ row !! key = Some Missing -> text_field row key = VStr EmptyString.
Proof.
  intros [H|H]; unfold text_field, get, py_or; rewrite H; reflexivity.
Qed.

Lemma normalize_unfold row :
  normalize row =
  match form_submissions row with
  | Ok n => Ok (record_of row n)
  | Raise e => Raise e
  end.
Proof.
  unfold normalize, form_submissions.
  destruct (int_float _) as [n|e]; [|reflexivity].
  cbn [mbind result_bind mret result_ret].
  unfold record_of.
  destruct (strptime _); cbn [dict_set String.eqb Ascii.eqb Bool.eqb];
    destruct (truthy (get row "Company Name" _)); reflexivity.
Qed.

Lemma normalize_inv row record :
  normalize row = Ok record ->
  exists n, form_submissions row = Ok n /\ record = record_of row n.
Proof.
  rewrite normalize_unfold. destruct (form_submissions row); [|done].
  intros [= <-]. eauto.
Qed.

Lemma record_of_keys row n : map fst (record_of row n) = record_keys.
Proof. reflexivity. Qed.

Lemma text_fields_length : length text_fields = 15%nat.
Proof. reflexivity. Qed.

(** ** The fields of a record *)

Lemma dict_get_text_field row n field column :
  (field, column) ∈ text_fields ->
  dict_get (record_of row n) field = Some (text_field row column).
Proof.
  unfold text_fields. rewrite !elem_of_cons, elem_of_nil.
  intros H. repeat destruct H as [H|H]; try done; injection H as -> ->; reflexivity.
Qed.

(** C2. Each plain text field of a record (id, firstName, lastName, email,
    phone, company, industry, state, trafficSource, trafficSourceDetail,
    originalTrafficSource, formType, recordSource, message, leadStatus)
    holds the text of its source cell as it is, and the empty string when
    the column is absent or the cell is None or empty. *)
Theorem text_fields_verbatim row record field column :
  normalize row = Ok record ->
  (field, column) ∈ text_fields ->
  (forall s, row !! column = Some (Text s) -> dict_get record field = Some (VStr s)) /\
  (blank row column -> dict_get record field = Some (VStr EmptyString)).
Proof.
  intros Hn Hf. apply normalize_inv in Hn as (n & _ & ->).
  rewrite (dict_get_text_field _ _ _ _ Hf). split.
  - intros s Hs. by rewrite (text_field_Text _ _ _ Hs).
  - intros [H|[H|H]].
    + rewrite text_field_blank; auto.
    + rewrite text_field_blank; auto.
    + by rewrite (text_field_Text _ _ _ H).
Qed.

Lemma truthy_get_filled row key :
  truthy (get row key (VStr EmptyString)) = true <-> filled row key.
Proof.
  unfold get, filled. destruct (row !! key) as [[|s]|]; simpl.
  - split; [done|]. intros (s & [=] & _).
  - change (negb (String.eqb s "")) with (truthy (VStr s)). rewrite truthy_VStr. split.
    + intros H. by exists s.
    + by intros (s' & [= <-] & H).
  - split; [done|]. intros (s & [=] & _).
Qed.

(** C1. The field isComplete of a record is a boolean, and it is true
    exactly when both the "Company Name" cell and the "Your Industry"
    cell are present and hold non-empty text. *)
Theorem isComplete_iff row record :
  normalize row = Ok record ->
  exists b, dict_get record "isComplete" = Some (VBool b) /\
    (b = true <-> filled row "Company Name" /\ filled row "Your Industry").
Proof.
  intros Hn. apply normalize_inv in Hn as (n & _ & ->).
  eexists. split; [reflexivity|].
  rewrite andb_true_iff, !truthy_get_filled. done.
Qed.

(** ** [int(float(...))] *)




Lemma round_half_even_nonneg n d :
  (0 <= n)%Z -> (0 < d)%Z -> (0 <= round_half_even n d)%Z.
Proof.
  intros Hn Hd. unfold round_half_even.
  assert (0 <= n / d)%Z by (apply Z.div_pos; lia).
  repeat case_match; lia.
Qed.

Lemma binary64_of_ratio_finite neg num den neg' m e :
  (0 <= num)%Z -> (0 < den)%Z ->
  binary64_of_ratio neg num den = Finite neg' m e -> neg' = neg /\ (0 <= m)%Z.
Proof.
  intros Hn Hd. unfold binary64_of_ratio.
  destruct (num =? 0)%Z; [intros [= <- <- <-]; split; [done|lia]|].
  destruct (scaled num den _) as [n0 d0].
  set (e' := Z.max _ _).
  destruct (scaled num den e') as [n d] eqn:Hs.
  destruct (_ || _); [done|]. intros [= <- <- <-]. split; [done|].
  apply round_half_even_nonneg; unfold scaled in Hs;
    destruct (Z.leb_spec 0 e'); injection Hs as <- <-;
    try apply Z.mul_nonneg_nonneg; try apply Z.mul_pos_pos; try lia;
    try (apply Z.pow_nonneg; lia); apply Z.pow_pos_nonneg; lia.
Qed.



Lemma is_digit_val c : is_digit c = true -> (0 <= digit_val c <= 9)%Z.
Proof.
  unfold is_digit, in_range, digit_val. rewrite andb_true_iff, !Z.leb_le. lia.
Qed.

Lemma read_digits_nonneg s : forall acc n v k r,
  (0 <= acc)%Z -> read_digits acc n s = (v, k, r) -> (0 <= v)%Z.
Proof.
  induction s as [|c s IH]; intros acc n v k r Hacc; simpl.
  - intros [= <- _ _]. done.
  - destruct (is_digit c) eqn:Hc.
    + apply IH. apply is_digit_val in Hc. lia.
    + intros [= <- _ _]. done.
Qed.

Lemma binary64_of_decimal_finite neg M E neg' m e :
  (0 <= M)%Z ->
  binary64_of_decimal neg M E = Finite neg' m e -> neg' = neg /\ (0 <= m)%Z.
Proof.
  intros HM. unfold binary64_of_decimal.
  destruct (Z.leb_spec 0 E); intros Hb.
  - apply binary64_of_ratio_finite in Hb; [done| |lia].
    apply Z.mul_nonneg_nonneg; [done|]. apply Z.pow_nonneg. lia.
  - apply binary64_of_ratio_finite in Hb; [done|done|].
    apply Z.pow_pos_nonneg; lia.
Qed.

Lemma dg_strtod_finite s neg m e rest :
  dg_strtod s = Some (Finite neg m e, rest) -> (0 <= m)%Z.
Proof.
  unfold dg_strtod.
  destruct (read_sign s) as [sign s1].
  destruct (read_digits 0 0 s1) as [[ipart nd0] s2] eqn:H1.
  assert (Hi : (0 <= ipart)%Z) by (eapply read_digits_nonneg; [|exact H1]; lia).
  assert (Hm : forall M fl s3,
    match s2 with
    | String "." r => read_digits ipart 0 r
    | _ => (ipart, O, s2)
    end = (M, fl, s3) -> (0 <= M)%Z).
  { intros M fl s3. destruct s2 as [|c r].
    - intros [= <- _ _]. done.
    - destruct (Ascii.eqb_spec c ".") as [->|Hne].
      + intros H. eapply read_digits_nonneg; [|exact H]. done.
      + destruct c as [[] [] [] [] [] [] [] []]; try (intros [= <- _ _]; done).
        by destruct Hne. }
  destruct (match s2 with String "." r => _ | _ => _ end) as [[M fl] s3].
  specialize (Hm M fl s3 eq_refl).
  destruct (nd0 + fl)%nat; [done|].
  destruct (read_exponent s3) as [E s4].
  intros [= H _]. by apply binary64_of_decimal_finite in H as [_ ?].
Qed.

Lemma parse_inf_or_nan_not_finite s neg m e rest :
  parse_inf_or_nan s <> Some (Finite neg m e, rest).
Proof.
  unfold parse_inf_or_nan. destruct (read_sign s) as [negate s1].
  repeat case_match; congruence.
Qed.

Lemma float_from_string_inner_finite s neg m e :
  float_from_string_inner s = Ok (Finite neg m e) -> (0 <= m)%Z.
Proof.
  unfold float_from_string_inner, ascii_strtod.
  destruct (dg_strtod _) as [[x rest]|] eqn:Hd.
  - destruct rest; [|done]. intros [= ->]. by eapply dg_strtod_finite.
  - destruct (parse_inf_or_nan _) as [[x rest]|] eqn:Hp; [|done].
    destruct rest; [|done]. intros [= ->].
    by apply parse_inf_or_nan_not_finite in Hp.
Qed.

Lemma float_from_string_finite s neg m e :
  float_from_string s = Ok (Finite neg m e) -> (0 <= m)%Z.
Proof.
  unfold float_from_string. repeat case_match; try done;
    apply float_from_string_inner_finite.
Qed.

(** [float] raises nothing but [ValueError] on text. *)
Lemma float_from_string_raises s e :
  float_from_string s = Raise e -> e = ValueError.
Proof.
  unfold float_from_string, float_from_string_inner.
  repeat case_match; congruence.
Qed.

(** ** A numeral and the binary64 read from it *)




Section Rounding.
Local Open Scope Z_scope.




End Rounding.






Section Exponent.
Local Open Scope Z_scope.



End Exponent.



(** ** formSubmissions *)

Lemma form_submissions_blank row :
  blank row "Number of Form Submissions" -> form_submissions row = Ok 0%Z.
Proof.
  unfold form_submissions, get. intros [H|[H|H]]; rewrite H; reflexivity.
Qed.

Lemma form_submissions_text row s :
  row !! "Number of Form Submissions" = Some (Text s) -> s <> EmptyString ->
  form_submissions row = int_float (VStr s).
Proof.
  unfold form_submissions, get, py_or. intros -> Hs. simpl.
  by destruct s.
Qed.

Lemma dict_get_formSubmissions row n :
  dict_get (record_of row n) "formSubmissions" = Some (VInt n).
Proof. reflexivity. Qed.

Lemma normalize_form_submissions row n :
  form_submissions row = Ok n -> yields_formSubmissions row n.
Proof.
  intros H. exists (record_of row n). by rewrite normalize_unfold, H.
Qed.

Lemma normalize_text row s n :
  row !! "Number of Form Submissions" = Some (Text s) ->
  int_float (VStr s) = Ok n -> s <> EmptyString ->
  yields_formSubmissions row n.
Proof.
  intros Hr Hn Hs. apply normalize_form_submissions.
  by rewrite (form_submissions_text _ _ Hr Hs).
Qed.

(** C4. formSubmissions is the cell converted by float and cut to an
    integer by int, and 0 when the column is absent; the cells "0", "3"
    and "2.7" give 0, 3 and 2. *)
Theorem formSubmissions_conversion :
  (forall row record, normalize row = Ok record ->
     exists n, dict_get record "formSubmissions" = Some (VInt n) /\
       (row !! "Number of Form Submissions" = None -> n = 0%Z) /\
       (forall s, row !! "Number of Form Submissions" = Some (Text s) ->
          s <> EmptyString ->
          exists x, py_float (VStr s) = Ok x /\ py_int x = Ok n)) /\
  (forall row, row !! "Number of Form Submissions" = Some (Text "0") ->
     yields_formSubmissions row 0) /\
  (forall row, row !! "Number of Form Submissions" = Some (Text "3") ->
     yields_formSubmissions row 3) /\
  (forall row, row !! "Number of Form Submissions" = Some (Text "2.7") ->
     yields_formSubmissions row 2) /\
  (forall row, row !! "Number of Form Submissions" = None ->
     yields_formSubmissions row 0).
Proof.
  split; [|repeat split].
  - intros row record Hn. apply normalize_inv in Hn as (n & Hf & ->).
    exists n. split; [reflexivity|]. split.
    + intros H. rewrite form_submissions_blank in Hf; [congruence|]. by left.
    + intros s Hs Hne. rewrite (form_submissions_text _ _ Hs Hne) in Hf.
      unfold int_float in Hf. destruct (py_float (VStr s)) as [x|]; [|done].
      by exists x.
  - intros row Hr. by eapply normalize_text.
  - intros row Hr. by eapply normalize_text.
  - intros row Hr. by eapply normalize_text.
  - intros row Hr. apply normalize_form_submissions, form_submissions_blank. by left.
Qed.

(** C9. When the "Number of Form Submissions" column is present and its
    cell is the empty string, the row yields a record (nothing is raised)
    and formSubmissions is 0. *)
Theorem formSubmissions_empty_cell row :
  row !! "Number of Form Submissions" = Some (Text EmptyString) ->
  yields_formSubmissions row 0.
Proof.
  intros H. apply normalize_form_submissions, form_submissions_blank.
  right. by right.
Qed.



(** ** Rows that raise *)

Lemma normalize_raise row e :
  normalize row = Raise e <-> form_submissions row = Raise e.
Proof.
  rewrite normalize_unfold. destruct (form_submissions row); split; congruence.
Qed.

Lemma normalize_ok_iff row :
  (exists record, normalize row = Ok record) <-> numeric_or_blank row.
Proof.
  rewrite normalize_unfold. unfold numeric_or_blank, blank. split.
  - intros [record H].
    destruct (form_submissions row) as [n|] eqn:Hf; [clear H|done].
    destruct (row !! "Number of Form Submissions") as [[|s]|] eqn:Hr; auto.
    destruct (String.eqb_spec s EmptyString) as [->|Hne]; auto.
    right. rewrite (form_submissions_text _ _ Hr Hne) in Hf.
    unfold int_float, py_float in Hf.
    destruct (float_from_string s) as [[neg m e| |]|] eqn:Hx; try done.
    by exists s, neg, m, e.
  - intros [Hb|(s & neg & m & e & Hr & Hx)].
    + rewrite (form_submissions_blank _ Hb). eauto.
    + assert (Hne : s <> EmptyString) by (by intros ->).
      rewrite (form_submissions_text _ _ Hr Hne).
      unfold int_float, py_float. rewrite Hx. simpl. eauto.
Qed.

Lemma form_submissions_insert_ne row key c :
  key <> "Number of Form Submissions" ->
  form_submissions (<[key:=c]> row) = form_submissions row.
Proof.
  intros Hk. unfold form_submissions, get. by rewrite lookup_insert_ne.
Qed.

(** C5, as the code has it. A row yields exactly one record, with the
    keys of the dict display, unless the formSubmissions conversion
    raises: it yields one exactly when the "Number of Form Submissions"
    cell is absent, None, empty or text that float reads as a finite
    number, and the content of no other cell makes it fail. *)
Theorem normalize_total_but_formSubmissions row :
  ((exists record, normalize row = Ok record) <-> numeric_or_blank row) /\
  (forall record, normalize row = Ok record -> map fst record = record_keys) /\
  (forall key c, key <> "Number of Form Submissions" ->
     (exists record, normalize row = Ok record) ->
     exists record, normalize (<[key:=c]> row) = Ok record).
Proof.
  split; [apply normalize_ok_iff|split].
  - intros record H. by apply normalize_inv in H as (n & _ & ->).
  - intros key c Hk [record H]. apply normalize_inv in H as (n & Hf & _).
    exists (record_of (<[key:=c]> row) n).
    by rewrite normalize_unfold, form_submissions_insert_ne, Hf.
Qed.

(** C5 fails as stated: a row whose "Number of Form Submissions" cell is
    "abc" yields no record; ValueError is raised. *)
Lemma normalize_raises_on_abc :
  normalize {[ "Number of Form Submissions" := Text "abc" ]} = Raise ValueError.
Proof. reflexivity. Qed.

Lemma loop_raises reader row e0 :
  row ∈ reader -> normalize row = Raise e0 ->
  forall data, exists e, loop reader data = Raise e.
Proof.
  intros Hin Hr. induction reader as [|r reader IH]; [by apply elem_of_nil in Hin|].
  intros data. simpl. apply elem_of_cons in Hin as [<-|Hin].
  - rewrite Hr. eauto.
  - destruct (normalize r); eauto.
Qed.

(** C6. A row whose "Number of Form Submissions" cell holds text that
    float cannot read raises ValueError instead of yielding a record, and
    a run that reads such a row ends with an exception and writes no
    output. *)
Theorem non_numeral_aborts row s :
  row !! "Number of Form Submissions" = Some (Text s) ->
  s <> EmptyString ->
  float_from_string s = Raise ValueError ->
  normalize row = Raise ValueError /\
  (forall reader, row ∈ reader -> exists e, main reader = Raise e).
Proof.
  intros Hr Hne Hx.
  assert (Hn : normalize row = Raise ValueError).
  { apply normalize_raise. rewrite (form_submissions_text _ _ Hr Hne).
    unfold int_float, py_float. by rewrite Hx. }
  split; [done|]. intros reader Hin.
  destruct (loop_raises reader row _ Hin Hn []) as [e He].
  exists e. unfold main. by rewrite He.
Qed.

(** ** The loop *)

Lemma loop_spec reader : forall data,
  match loop reader data with
  | Ok out =>
      exists records, out = data ++ records /\
        Forall2 (fun row record => normalize row = Ok record) reader records
  | Raise e => exists row, row ∈ reader /\ normalize row = Raise e
  end.
Proof.
  induction reader as [|row reader IH]; intros data; simpl.
  - exists []. split; [by rewrite app_nil_r|constructor].
  - destruct (normalize row) as [record|e] eqn:Hn.
    + specialize (IH (data ++ [record])).
      destruct (loop reader (data ++ [record])) as [out|e].
      * destruct IH as (records & -> & HF). exists (record :: records).
        split; [by rewrite <- app_assoc|by constructor].
      * destruct IH as (r & Hin & Hr). exists r. split; [by right|done].
    + exists row. split; [by left|done].
Qed.

(** C7. When the loop ends, the list of records is as long as the list
    of rows the reader gave, and the record at each position is the one
    its row yields; a run that raises instead has read a row that raises
    that exception. *)
Theorem records_follow_rows reader :
  match loop reader [] with
  | Ok data =>
      length data = length reader /\
      (forall i row, reader !! i = Some row ->
         exists record, data !! i = Some record /\ normalize row = Ok record)
  | Raise e => exists row, row ∈ reader /\ normalize row = Raise e
  end.
Proof.
  pose proof (loop_spec reader []) as H.
  destruct (loop reader []) as [data|e]; [|done].
  destruct H as (records & -> & HF). simpl. split.
  - symmetry. by eapply Forall2_length.
  - intros i row Hi. by eapply Forall2_lookup_l in HF.
Qed.

(** ** createDate *)

(** Bounded checks by evaluation. *)
Lemma forall_range (P : Z -> bool) lo len :
  forallb P (seqZ lo len) = true ->
  forall n, (lo <= n < lo + len)%Z -> P n = true.
Proof.
  intros H n Hn. rewrite forallb_forall in H. apply H.
  apply list_elem_of_In, elem_of_seqZ. lia.
Qed.

Lemma pad2_ok_all n : (0 <= n <= 99)%Z -> pad2_ok n = true.
Proof. intros H. apply (forall_range pad2_ok 0 100); [by vm_compute|lia]. Qed.

Lemma pad4_ok_all n : (0 <= n <= 9999)%Z -> pad4_ok n = true.
Proof. intros H. apply (forall_range pad4_ok 0 10000); [by vm_compute|lia]. Qed.

Lemma append_String c (a b : string) : String c a +:+ b = String c (a +:+ b).
Proof. reflexivity. Qed.

Lemma append_nil_l (a : string) : EmptyString +:+ a = a.
Proof. reflexivity. Qed.

Lemma append_assoc (a b c : string) : (a +:+ b) +:+ c = a +:+ (b +:+ c).
Proof. induction a as [|x a IH]; [done|]. by rewrite !append_String, IH. Qed.

Lemma append_nil_r (a : string) : a +:+ EmptyString = a.
Proof. induction a as [|x a IH]; [done|]. by rewrite append_String, IH. Qed.

Lemma length_append (a b : string) :
  String.length (a +:+ b) = (String.length a + String.length b)%nat.
Proof. induction a as [|x a IH]; [done|]. rewrite append_String. cbn. by rewrite IH. Qed.

(** *** Matching, step by step *)

Section Steps.
Context {R : Type}.
Implicit Types (k : string -> string -> groups -> option R).

Lemma rmatch_Seq r1 r2 s g k :
  rmatch r1 s g (fun m1 s1 g1 => rmatch r2 s1 g1 (fun m2 s2 g2 => k (m1 +:+ m2) s2 g2)) =
  rmatch (Seq r1 r2) s g k.
Proof. reflexivity. Qed.

Lemma rmatch_Chr c s g k :
  rmatch (Chr c) (String c s) g k = k (String c EmptyString) s g.
Proof. cbn. by rewrite Ascii.eqb_refl. Qed.

Lemma rmatch_Y y rest g k :
  (0 <= y <= 9999)%Z ->
  rmatch re_Y (zero_pad 4 y +:+ rest) g k =
  k (zero_pad 4 y) rest (("Y", zero_pad 4 y) :: g).
Proof.
  intros Hy. pose proof (pad4_ok_all y Hy) as H. unfold pad4_ok in H.
  destruct (zero_pad 4 y) as [|a [|b [|c [|d [|]]]]]; try done.
  rewrite !andb_true_iff in H. destruct H as [[[[Ha Hb] Hc] Hd] _].
  rewrite !append_String, append_nil_l.
  unfold re_Y, digit. cbn [rmatch seq]. by rewrite Ha, Hb, Hc, Hd.
Qed.

Lemma rmatch_space n rest g k :
  (0 <= n <= 99)%Z ->
  rmatch (Plus Py_UNICODE_ISSPACE) (String " " (zero_pad 2 n +:+ rest)) g k =
  k " " (zero_pad 2 n +:+ rest) g.
Proof.
  intros Hn. pose proof (pad2_ok_all n Hn) as H. unfold pad2_ok in H.
  destruct (zero_pad 2 n) as [|a [|b [|]]]; try done.
  rewrite !andb_true_iff in H. destruct H as [[Ha _] _].
  rewrite !append_String, append_nil_l.
  cbn [rmatch match_more]. replace (Py_UNICODE_ISSPACE a) with false; [done|].
  unfold is_digit, Py_UNICODE_ISSPACE, in_range in *.
  rewrite andb_true_iff, !Z.leb_le in Ha. symmetry.
  rewrite !orb_false_iff, !andb_false_iff, !Z.leb_gt, !Z.eqb_neq. lia.
Qed.
End Steps.

(** Case analysis on an integer of a known range. *)
Ltac enumerate n lo len :=
  let H := fresh "Hin" in
  assert (H : n ∈ seqZ lo len) by (apply elem_of_seqZ; lia);
  vm_compute in H;
  repeat (apply elem_of_cons in H as [->|H]);
  [..|by apply elem_of_nil in H].

Section Groups.
Context {R : Type}.
Implicit Types (k : string -> string -> groups -> option R).

Lemma rmatch_m n rest g k x :
  (1 <= n <= 12)%Z ->
  k (zero_pad 2 n) rest (("m", zero_pad 2 n) :: g) = Some x ->
  rmatch re_m (zero_pad 2 n +:+ rest) g k = Some x.
Proof.
  intros Hn Hk. enumerate n 1%Z 12%Z;
    vm_compute in Hk |- *; by rewrite Hk.
Qed.

Lemma rmatch_d n rest g k x :
  (1 <= n <= 31)%Z ->
  k (zero_pad 2 n) rest (("d", zero_pad 2 n) :: g) = Some x ->
  rmatch re_d (zero_pad 2 n +:+ rest) g k = Some x.
Proof.
  intros Hn Hk. enumerate n 1%Z 31%Z;
    vm_compute in Hk |- *; by rewrite Hk.
Qed.

Lemma rmatch_H n rest g k x :
  (0 <= n <= 23)%Z ->
  k (zero_pad 2 n) rest (("H", zero_pad 2 n) :: g) = Some x ->
  rmatch re_H (zero_pad 2 n +:+ rest) g k = Some x.
Proof.
  intros Hn Hk. enumerate n 0%Z 24%Z;
    vm_compute in Hk |- *; by rewrite Hk.
Qed.

Lemma rmatch_M n rest g k x :
  (0 <= n <= 59)%Z ->
  k (zero_pad 2 n) rest (("M", zero_pad 2 n) :: g) = Some x ->
  rmatch re_M (zero_pad 2 n +:+ rest) g k = Some x.
Proof.
  intros Hn Hk. enumerate n 0%Z 60%Z;
    vm_compute in Hk |- *; by rewrite Hk.
Qed.
End Groups.

Lemma re_match_pattern y mo d h mi :
  (0 <= y <= 9999)%Z -> (1 <= mo <= 12)%Z -> (1 <= d <= 31)%Z ->
  (0 <= h <= 23)%Z -> (0 <= mi <= 59)%Z ->
  re_match format_regex (pattern_text y mo d h mi) =
  Some ([("M", zero_pad 2 mi); ("H", zero_pad 2 h); ("d", zero_pad 2 d);
         ("m", zero_pad 2 mo); ("Y", zero_pad 4 y)], EmptyString).
Proof.
  intros Hy Hmo Hd Hh Hmi.
  unfold re_match, format_regex, pattern_text. cbn [seq].
  rewrite <- (append_nil_r (zero_pad 2 mi)).
  rewrite !append_String, !append_nil_l.
  rewrite <- rmatch_Seq, rmatch_Y by done. cbv beta.
  rewrite <- rmatch_Seq, rmatch_Chr. cbv beta.
  rewrite <- rmatch_Seq. eapply rmatch_m; [done|]. cbv beta.
  rewrite <- rmatch_Seq, rmatch_Chr. cbv beta.
  rewrite <- rmatch_Seq. eapply rmatch_d; [done|]. cbv beta.
  rewrite <- rmatch_Seq, rmatch_space by lia. cbv beta.
  rewrite <- rmatch_Seq. eapply rmatch_H; [done|]. cbv beta.
  rewrite <- rmatch_Seq, rmatch_Chr. cbv beta.
  eapply rmatch_M; [done|]. by rewrite append_nil_r.
Qed.

Lemma int_of_group_pad2 n : (0 <= n <= 99)%Z -> int_of_group (zero_pad 2 n) = n.
Proof.
  intros Hn. pose proof (pad2_ok_all n Hn) as H. unfold pad2_ok in H.
  destruct (zero_pad 2 n) as [|a [|b [|]]]; try done.
  rewrite !andb_true_iff in H. destruct H as [_ H]. by apply Z.eqb_eq.
Qed.

Lemma int_of_group_pad4 n : (0 <= n <= 9999)%Z -> int_of_group (zero_pad 4 n) = n.
Proof.
  intros Hn. pose proof (pad4_ok_all n Hn) as H. unfold pad4_ok in H.
  destruct (zero_pad 4 n) as [|a [|b [|c [|d [|]]]]]; try done.
  rewrite !andb_true_iff in H. destruct H as [_ H]. by apply Z.eqb_eq.
Qed.

Lemma days_in_month_le y m : (28 <= days_in_month y m <= 31)%Z.
Proof. unfold days_in_month. repeat case_match; lia. Qed.

Lemma check_date_fields_range y m d :
  check_date_fields y m d = true ->
  (1 <= y <= 9999)%Z /\ (1 <= m <= 12)%Z /\ (1 <= d <= 31)%Z.
Proof.
  unfold check_date_fields. rewrite !andb_true_iff, !Z.leb_le.
  pose proof (days_in_month_le y m). lia.
Qed.

Lemma check_time_fields_range h mi s :
  check_time_fields h mi s = true ->
  (0 <= h <= 23)%Z /\ (0 <= mi <= 59)%Z /\ (0 <= s <= 59)%Z.
Proof. unfold check_time_fields. rewrite !andb_true_iff, !Z.leb_le. lia. Qed.

Lemma strptime_pattern y mo d h mi :
  check_date_fields y mo d = true -> check_time_fields h mi 0 = true ->
  strptime (VStr (pattern_text y mo d h mi)) =
  Ok {| year := y; month := mo; day := d; hour := h; minute := mi; second := 0 |}.
Proof.
  intros Hd Ht.
  destruct (check_date_fields_range _ _ _ Hd) as (Hy & Hmo & Hdd).
  destruct (check_time_fields_range _ _ _ Ht) as (Hh & Hmi & _).
  unfold strptime. rewrite re_match_pattern by lia.
  cbn [group String.eqb Ascii.eqb Bool.eqb].
  rewrite int_of_group_pad4, !int_of_group_pad2 by lia.
  by rewrite Hd, Ht.
Qed.

Lemma isoformat_iso_text y mo d h mi :
  isoformat {| year := y; month := mo; day := d; hour := h; minute := mi; second := 0 |}
    +:+ "Z" = iso_text y mo d h mi.
Proof.
  unfold isoformat, iso_text. cbn [year month day hour minute second].
  rewrite !append_assoc. reflexivity.
Qed.

Lemma length_isoformat dt :
  check_date_fields (year dt) (month dt) (day dt) = true ->
  check_time_fields (hour dt) (minute dt) (second dt) = true ->
  String.length (isoformat dt +:+ "Z") = 20%nat.
Proof.
  intros Hd Ht.
  destruct (check_date_fields_range _ _ _ Hd) as (Hy & Hmo & Hdd).
  destruct (check_time_fields_range _ _ _ Ht) as (Hh & Hmi & Hs).
  assert (L2 : forall n, (0 <= n <= 99)%Z -> String.length (zero_pad 2 n) = 2%nat).
  { intros n Hn. pose proof (pad2_ok_all n Hn) as H. unfold pad2_ok in H.
    by destruct (zero_pad 2 n) as [|a [|b [|]]]. }
  assert (L4 : String.length (zero_pad 4 (year dt)) = 4%nat).
  { pose proof (pad4_ok_all (year dt) ltac:(lia)) as H. unfold pad4_ok in H.
    by destruct (zero_pad 4 (year dt)) as [|a [|b [|c [|e [|]]]]]. }
  unfold isoformat. rewrite !length_append, L4, !L2 by lia. reflexivity.
Qed.

Lemma strptime_ok v dt :
  strptime v = Ok dt ->
  check_date_fields (year dt) (month dt) (day dt) = true /\
  check_time_fields (hour dt) (minute dt) (second dt) = true /\
  second dt = 0%Z /\ exists s, v = VStr s.
Proof.
  unfold strptime. destruct v as [| | |s]; try done.
  destruct (re_match format_regex s) as [[found [|]]|]; try done.
  destruct (check_date_fields _ _ _ && check_time_fields _ _ _) eqn:Hc; [|done].
  apply andb_true_iff in Hc as [Hd Ht]. intros [= <-]. cbn. eauto.
Qed.

Lemma strptime_day_out_of_range y mo d h mi :
  (1 <= y <= 9999)%Z -> (1 <= mo <= 12)%Z ->
  (days_in_month y mo < d <= 31)%Z -> check_time_fields h mi 0 = true ->
  strptime (VStr (pattern_text y mo d h mi)) = Raise ValueError.
Proof.
  intros Hy Hmo Hd Ht.
  destruct (check_time_fields_range _ _ _ Ht) as (Hh & Hmi & _).
  pose proof (days_in_month_le y mo).
  unfold strptime. rewrite re_match_pattern by lia.
  cbn [group String.eqb Ascii.eqb Bool.eqb].
  rewrite int_of_group_pad4, !int_of_group_pad2 by lia.
  replace (check_date_fields y mo d) with false; [done|].
  symmetry. unfold check_date_fields.
  rewrite !andb_false_iff, !Z.leb_gt. lia.
Qed.

Lemma dict_get_createDate row n :
  dict_get (record_of row n) "createDate" =
  Some (VStr match strptime (get row "Create Date" (VStr EmptyString)) with
             | Ok dt => isoformat dt +:+ "Z"
             | Raise _ => EmptyString
             end).
Proof. reflexivity. Qed.

Lemma get_Text row key s default :
  row !! key = Some (Text s) -> get row key default = VStr s.
Proof. unfold get. by intros ->. Qed.

(** C3. createDate is the "Create Date" cell read by strptime with the
    pattern of YYYY-MM-DD HH:MM.  When the cell is read, the field is the
    ISO text of the date and time, with seconds 00 and a final Z, 20
    characters long; a cell YYYY-MM-DD HH:MM of a real date and time is
    always read, so "2024-03-15 14:30" gives "2024-03-15T14:30:00Z".
    When it is not read (the text has another form, is empty, the cell is
    absent or None, or the day does not exist in the month) the field is
    the empty string; whatever the cell holds, the row still yields its
    record. *)
Theorem createDate_spec row record :
  normalize row = Ok record ->
  exists out, dict_get record "createDate" = Some (VStr out) /\
    (forall dt, strptime (get row "Create Date" (VStr EmptyString)) = Ok dt ->
       out = iso_text (year dt) (month dt) (day dt) (hour dt) (minute dt) /\
       String.length out = 20%nat /\
       check_date_fields (year dt) (month dt) (day dt) = true /\
       check_time_fields (hour dt) (minute dt) 0 = true) /\
    (forall e, strptime (get row "Create Date" (VStr EmptyString)) = Raise e ->
       out = EmptyString) /\
    (forall y mo d h mi,
       check_date_fields y mo d = true -> check_time_fields h mi 0 = true ->
       row !! "Create Date" = Some (Text (pattern_text y mo d h mi)) ->
       out = iso_text y mo d h mi) /\
    (row !! "Create Date" = Some (Text "2024-03-15 14:30") ->
       out = "2024-03-15T14:30:00Z") /\
    (blank row "Create Date" -> out = EmptyString) /\
    (forall s, s ∈ ["not-a-date"; "15/03/2024 14:30"; "2024-03-15 14:30:00";
                    "2024-13-01 10:00"; "2024-03-15 24:00"; "2023-02-29 10:00"] ->
       row !! "Create Date" = Some (Text s) -> out = EmptyString) /\
    (forall y mo d h mi,
       (1 <= y <= 9999)%Z -> (1 <= mo <= 12)%Z ->
       (days_in_month y mo < d <= 31)%Z -> check_time_fields h mi 0 = true ->
       row !! "Create Date" = Some (Text (pattern_text y mo d h mi)) ->
       out = EmptyString) /\
    (forall c, exists record', normalize (<["Create Date" := c]> row) = Ok record').
Proof.
  intros Hn. apply normalize_inv in Hn as (n & Hf & ->).
  eexists. split; [apply dict_get_createDate|].
  repeat split.
  - destruct dt as [y mo d h mi sec]. apply strptime_ok in H as H'.
    cbn in H'. destruct H' as (_ & _ & -> & _).
    rewrite H. apply isoformat_iso_text.
  - rewrite H. apply strptime_ok in H as (Hd & Ht & _). by apply length_isoformat.
  - by apply strptime_ok in H as (Hd & _).
  - apply strptime_ok in H as (_ & Ht & <- & _). done.
  - intros e He. by rewrite He.
  - intros y mo d h mi Hd Ht Hr.
    rewrite (get_Text _ _ _ _ Hr), strptime_pattern by done.
    apply isoformat_iso_text.
  - intros Hr. by rewrite (get_Text _ _ _ _ Hr).
  - intros [Hr|[Hr|Hr]]; unfold get; by rewrite Hr.
  - intros s Hs Hr. rewrite (get_Text _ _ _ _ Hr).
    rewrite !elem_of_cons, elem_of_nil in Hs.
    repeat destruct Hs as [->|Hs]; try done.
  - intros y mo d h mi Hy Hmo Hd Ht Hr.
    by rewrite (get_Text _ _ _ _ Hr), strptime_day_out_of_range.
  - intros c. exists (record_of (<["Create Date":=c]> row) n).
    by rewrite normalize_unfold, form_submissions_insert_ne, Hf.
Qed.

(** * The statements at concrete rows *)

(** Record 42 has a company and an industry. *)
Lemma isComplete_iff_witness :
  exists b, dict_get (record_of sample_row 2) "isComplete" = Some (VBool b) /\
    (b = true <-> filled sample_row "Company Name" /\ filled sample_row "Your Industry").
Proof. apply (isComplete_iff sample_row). vm_compute. reflexivity. Defined.

(** firstName of record 42 is read from "First Name". *)
Lemma text_fields_verbatim_witness :
  (forall s, sample_row !! "First Name" = Some (Text s) ->
     dict_get (record_of sample_row 2) "firstName" = Some (VStr s)) /\
  (blank sample_row "First Name" ->
     dict_get (record_of sample_row 2) "firstName" = Some (VStr EmptyString)).
Proof.
  apply (text_fields_verbatim sample_row).
  - vm_compute. reflexivity.
  - unfold text_fields. apply list_elem_of_further, list_elem_of_here.
Defined.

(** Record 42 was created on 2023-01-01 at 09:00. *)
Lemma createDate_spec_witness :
  exists out, dict_get (record_of sample_row 2) "createDate" = Some (VStr out) /\
    out = iso_text 2023 1 1 9 0.
Proof.
  destruct (createDate_spec sample_row (record_of sample_row 2)) as (out & Hg & _ & _ & Hp & _).
  - vm_compute. reflexivity.
  - exists out. split; [exact Hg|]. apply Hp; vm_compute; reflexivity.
Defined.

(** Record 42 with 2.7 submissions. *)
Lemma formSubmissions_conversion_witness :
  yields_formSubmissions (<["Number of Form Submissions" := Text "2.7"]> sample_row) 2.
Proof.
  destruct formSubmissions_conversion as (_ & _ & _ & H & _).
  apply H. vm_compute. reflexivity.
Defined.

(** Record 42 still yields a record when its message cell is None. *)
Lemma normalize_total_but_formSubmissions_witness :
  exists record, normalize (<["Message" := Missing]> sample_row) = Ok record.
Proof.
  destruct (normalize_total_but_formSubmissions sample_row) as (_ & _ & H).
  apply H.
  - discriminate.
  - exists (record_of sample_row 2). vm_compute. reflexivity.
Defined.

(** A row whose submissions cell is n/a. *)
Lemma non_numeral_aborts_witness :
  normalize {[ "Number of Form Submissions" := Text "n/a" ]} = Raise ValueError /\
  (forall reader, {[ "Number of Form Submissions" := Text "n/a" ]} ∈ reader ->
     exists e, main reader = Raise e).
Proof.
  apply (non_numeral_aborts _ "n/a").
  - vm_compute. reflexivity.
  - discriminate.
  - vm_compute. reflexivity.
Defined.

(** Record 42 followed by a row without any cell. *)
Lemma records_follow_rows_witness :
  match loop [sample_row; ∅] [] with
  | Ok data =>
      length data = 2%nat /\
      (forall i row, [sample_row; ∅] !! i = Some row ->
         exists record, data !! i = Some record /\ normalize row = Ok record)
  | Raise e => exists row, row ∈ [sample_row; ∅] /\ normalize row = Raise e
  end.
Proof. exact (records_follow_rows [sample_row; ∅]). Defined.

(** Record 42 with an empty submissions cell. *)
Lemma formSubmissions_empty_cell_witness :
  yields_formSubmissions (<["Number of Form Submissions" := Text EmptyString]> sample_row) 0.
Proof. apply formSubmissions_empty_cell. vm_compute. reflexivity. Defined.


(** * Further facts at concrete rows *)

(** The row of record 42 yields the eighteen fields of the dict display
    in its order; createDate keeps its ninth place when it is assigned
    after the display. *)
Lemma sample_row_record :
  normalize sample_row = Ok [
    ("id", VStr "42"); ("firstName", VStr "Ann"); ("lastName", VStr "");
    ("email", VStr ""); ("phone", VStr ""); ("company", VStr "Acme");
    ("industry", VStr "Tech"); ("state", VStr "");
    ("createDate", VStr "2023-01-01T09:00:00Z"); ("trafficSource", VStr "");
    ("trafficSourceDetail", VStr ""); ("originalTrafficSource", VStr "");
    ("formType", VStr ""); ("isComplete", VBool true); ("recordSource", VStr "");
    ("message", VStr ""); ("leadStatus", VStr ""); ("formSubmissions", VInt 2)
  ] /\ length record_keys = 18%nat.
Proof. split; vm_compute; reflexivity. Qed.

(** strptime reads more than the zero-padded pattern: months, days, hours
    and minutes of one digit, a day written with a blank, and any run of
    blanks between date and time. *)
Lemma createDate_lenient :
  map (fun s => dict_get (record_of (<["Create Date" := Text s]> sample_row) 2) "createDate")
    ["2024-3-5 7:5"; "2024-03- 5   14:30"; "2024-03-15 14:7"] =
  map (fun s => Some (VStr s))
    ["2024-03-05T07:05:00Z"; "2024-03-05T14:30:00Z"; "2024-03-15T14:07:00Z"].
Proof. vm_compute. reflexivity. Qed.

(** What float accepts beyond plain numerals, and where int then raises:
    blanks around the numeral and underscores between digits are read;
    an infinity (also by overflow) raises OverflowError, a NaN and text
    of blanks only ValueError; a numeral whose nearest binary64 is an
    integer gives that integer. *)
Lemma form_submissions_cells :
  map (fun s => form_submissions (<["Number of Form Submissions" := Text s]> sample_row))
    ["  3 "; "1_000"; "1e3"; "inf"; "1e400"; "nan"; "   "; "3,5";
     "-2.99999999999999999999"; "9007199254740993"] =
  [Ok 3; Ok 1000; Ok 1000; Raise OverflowError; Raise OverflowError;
   Raise ValueError; Raise ValueError; Raise ValueError;
   Ok (-3); Ok 9007199254740992]%Z.
Proof. vm_compute. reflexivity. Qed.

(** An empty reader writes the empty array, and a reader whose second row
    raises writes nothing though the first row was good. *)
Lemma main_edge_runs :
  main [] = Ok "[]" /\
  main [sample_row; {[ "Number of Form Submissions" := Text "n/a" ]}] = Raise ValueError.
Proof. split; vm_compute; reflexivity. Qed.

(** * Further properties *)

(** ** Which cells a record depends on *)

Lemma text_field_VStr row key : exists s, text_field row key = VStr s.
Proof.
  unfold text_field, get, py_or. destruct (row !! key) as [[|s]|]; simpl; eauto.
  destruct s; simpl; eauto.
Qed.

Lemma normalize_agree row row' :
  Forall (fun key => row !! key = row' !! key) columns ->
  normalize row = normalize row'.
Proof.
  intros F. rewrite !normalize_unfold.
  unfold form_submissions, record_of, text_field, get.
  unfold columns, text_fields in F. cbn [map snd app] in F.
  repeat match type of F with
         | Forall _ (_ :: _) => apply Forall_cons in F as [-> F]
         end.
  reflexivity.
Qed.

(** X: a record depends on the row only through the seventeen columns
    the script reads; other columns are ignored. *)
Theorem normalize_reads_columns row row' :
  (forall key, key ∈ columns -> row !! key = row' !! key) ->
  normalize row = normalize row'.
Proof. intros H. apply normalize_agree, Forall_forall, H. Qed.

(** ** Blank cells *)

Lemma get_insert_ne row key key' c default :
  key <> key' -> get (<[key:=c]> row) key' default = get row key' default.
Proof. intros H. unfold get. by rewrite lookup_insert_ne. Qed.

Lemma get_delete_ne row key key' default :
  key <> key' -> get (delete key row) key' default = get row key' default.
Proof. intros H. unfold get. by rewrite lookup_delete_ne. Qed.

(** What the script makes of the cell under [key]: the text of a text
    field, the truth value, the date text and the count. *)
Lemma blank_observations row key :
  blank row key ->
  py_or (get row key (VStr EmptyString)) (VStr EmptyString) = VStr EmptyString /\
  truthy (get row key (VStr EmptyString)) = false /\
  (exists e, strptime (get row key (VStr EmptyString)) = Raise e) /\
  py_or (get row key (VInt 0)) (VInt 0) = VInt 0.
Proof.
  unfold get. intros [H|[H|H]]; rewrite H; cbn; eauto 10.
Qed.

Lemma blank_insert row key c : blank_cell c -> blank (<[key:=c]> row) key.
Proof.
  unfold blank. rewrite lookup_insert_eq. intros [->| ->]; auto.
Qed.

Lemma blank_delete row key : blank (delete key row) key.
Proof. left. apply lookup_delete_eq. Qed.

(** Two rows that are blank under [key] and agree elsewhere. *)
Lemma normalize_blank_alike row row' key :
  blank row key -> blank row' key ->
  (forall key' default, key <> key' -> get row key' default = get row' key' default) ->
  normalize row = normalize row'.
Proof.
  intros Hb Hb' Hne. rewrite !normalize_unfold.
  assert (Ht : forall k, text_field row k = text_field row' k).
  { intros k. unfold text_field. destruct (decide (key = k)) as [<-|Hk].
    - destruct (blank_observations _ _ Hb) as (-> & _).
      by destruct (blank_observations _ _ Hb') as (-> & _).
    - by rewrite (Hne k _ Hk). }
  assert (Hy : forall k, truthy (get row k (VStr EmptyString)) =
                         truthy (get row' k (VStr EmptyString))).
  { intros k. destruct (decide (key = k)) as [<-|Hk].
    - destruct (blank_observations _ _ Hb) as (_ & -> & _).
      by destruct (blank_observations _ _ Hb') as (_ & -> & _).
    - by rewrite (Hne k _ Hk). }
  assert (Hd : match strptime (get row "Create Date" (VStr EmptyString)) with
               | Ok dt => isoformat dt +:+ "Z" | Raise _ => EmptyString end =
               match strptime (get row' "Create Date" (VStr EmptyString)) with
               | Ok dt => isoformat dt +:+ "Z" | Raise _ => EmptyString end).
  { destruct (decide (key = "Create Date")) as [->|Hk].
    - destruct (blank_observations _ _ Hb) as (_ & _ & [e ->] & _).
      by destruct (blank_observations _ _ Hb') as (_ & _ & [e' ->] & _).
    - by rewrite (Hne _ _ Hk). }
  assert (Hf : form_submissions row = form_submissions row').
  { unfold form_submissions.
    destruct (decide (key = "Number of Form Submissions")) as [->|Hk].
    - destruct (blank_observations _ _ Hb) as (_ & _ & _ & ->).
      by destruct (blank_observations _ _ Hb') as (_ & _ & _ & ->).
    - by rewrite (Hne _ _ Hk). }
  unfold record_of. by rewrite Hf, Hd, !Ht, !Hy.
Qed.

(** X: an absent column, a [None] cell and an empty cell are the same to
    the script, in every column: replacing one by another, or dropping the
    cell, leaves the result of the row as it was. *)
Theorem blank_cells_alike row key c :
  blank row key -> blank_cell c ->
  normalize (<[key:=c]> row) = normalize row /\
  normalize (delete key row) = normalize row.
Proof.
  intros Hb Hc. split; apply normalize_blank_alike with key;
    auto using blank_insert, blank_delete;
    intros; auto using get_insert_ne, get_delete_ne.
Qed.

(** ** A record agrees with itself *)

Lemma text_field_truthy row key :
  exists s, text_field row key = VStr s /\
    (truthy (get row key (VStr EmptyString)) = true <-> s <> EmptyString).
Proof.
  unfold text_field, get, py_or. destruct (row !! key) as [[|s]|]; simpl.
  - by exists EmptyString.
  - destruct s as [|a s]; simpl.
    + by exists EmptyString.
    + by exists (String a s).
  - by exists EmptyString.
Qed.

(** X: in every record, isComplete is true exactly when the record's
    own company and industry are non-empty strings. *)
Theorem isComplete_agrees_with_record row record :
  normalize row = Ok record ->
  exists b co ind,
    dict_get record "isComplete" = Some (VBool b) /\
    dict_get record "company" = Some (VStr co) /\
    dict_get record "industry" = Some (VStr ind) /\
    (b = true <-> co <> EmptyString /\ ind <> EmptyString).
Proof.
  intros Hn. apply normalize_inv in Hn as (n & _ & ->).
  destruct (text_field_truthy row "Company Name") as (co & Hco & Hc).
  destruct (text_field_truthy row "Your Industry") as (ind & Hind & Hi).
  exists (truthy (get row "Company Name" (VStr EmptyString)) &&
          truthy (get row "Your Industry" (VStr EmptyString))), co, ind.
  repeat split; try (cbn; congruence).
  - rewrite andb_true_iff in H. apply Hc, H.
  - rewrite andb_true_iff in H. apply Hi, H.
  - intros [H1 H2]. apply andb_true_iff. split; [by apply Hc|by apply Hi].
Qed.

(** X: the shape of a record: its eighteen keys in the order of the
    display, no key twice, text under every key but isComplete (a
    boolean) and formSubmissions (an integer), and never [None]. *)
Theorem record_schema row record :
  normalize row = Ok record ->
  map fst record = record_keys /\ NoDup (map fst record) /\
  (forall key v, dict_get record key = Some v ->
     match v with
     | VStr _ => key <> "isComplete" /\ key <> "formSubmissions"
     | VBool _ => key = "isComplete"
     | VInt _ => key = "formSubmissions"
     | VNone => False
     end).
Proof.
  intros Hn. apply normalize_inv in Hn as (n & _ & ->).
  split; [reflexivity|]. split.
  { rewrite record_of_keys. unfold record_keys.
    apply (bool_decide_unpack _). vm_compute. exact I. }
  intros key v. unfold record_of. cbn [dict_get].
  repeat match goal with
         | |- context [String.eqb ?a key] =>
             destruct (String.eqb_spec a key) as [<-|?]
         | |- Some (text_field ?r ?k) = Some _ -> _ =>
             destruct (text_field_VStr r k) as [? ->]
         end; try (intros [= <-]; done); done.
Qed.

(** ** What the date pattern can match *)

Lemma string_forall_app p a b :
  string_forall p (a +:+ b) = string_forall p a && string_forall p b.
Proof.
  induction a as [|x a IH]; [done|].
  rewrite append_String. cbn. by rewrite IH, andb_assoc.
Qed.

Lemma string_forall_impl (p q : ascii -> bool) s :
  (forall c, p c = true -> q c = true) ->
  string_forall p s = true -> string_forall q s = true.
Proof.
  intros H. induction s as [|x s IH]; [done|]. cbn.
  rewrite !andb_true_iff. intros [? ?]. auto.
Qed.

Section Soundness.
Context {R : Type}.

Lemma match_more_sound p s : forall m (k : string -> string -> option R) x,
  match_more p m s k = Some x ->
  exists m' rest, s = m' +:+ rest /\ k (m +:+ m') rest = Some x /\
    string_forall p m' = true.
Proof.
  induction s as [|c s IH]; intros m k x; cbn [match_more].
  - intros H. exists EmptyString, EmptyString. rewrite (append_nil_r m). by repeat split.
  - destruct (p c) eqn:Hc.
    + destruct (match_more p (m +:+ String c EmptyString) s k) as [y|] eqn:Hm.
      * intros [= ->]. apply IH in Hm as (m' & rest & -> & Hk & Hp).
        exists (String c m'), rest. rewrite append_assoc in Hk.
        split; [done|]. split; [exact Hk|]. cbn. by rewrite Hc.
      * intros H. exists EmptyString, (String c s). rewrite (append_nil_r m). by repeat split.
    + intros H. exists EmptyString, (String c s). rewrite (append_nil_r m). by repeat split.
Qed.

(** A successful match hands its continuation a split of the text, and
    the part matched holds only characters of the expression. *)
Lemma rmatch_sound r : forall s g (k : string -> string -> groups -> option R) x,
  rmatch r s g k = Some x ->
  exists m rest g', s = m +:+ rest /\ k m rest g' = Some x /\
    string_forall (alphabet r) m = true.
Proof.
  induction r as [c|p|r1 IH1 r2 IH2|r1 IH1 r2 IH2|p|name r1 IH1];
    intros s g k x; cbn [rmatch].
  - destruct s as [|c' s]; [done|]. destruct (Ascii.eqb_spec c' c) as [->|]; [|done].
    intros H. exists (String c EmptyString), s, g. repeat split; [done|].
    cbn. by rewrite Ascii.eqb_refl.
  - destruct s as [|c' s]; [done|]. destruct (p c') eqn:Hp; [|done].
    intros H. exists (String c' EmptyString), s, g. repeat split; [done|].
    cbn. by rewrite Hp.
  - intros H. apply IH1 in H as (m1 & rest1 & g1 & -> & H & Hp1).
    apply IH2 in H as (m2 & rest2 & g2 & -> & H & Hp2).
    exists (m1 +:+ m2), rest2, g2. rewrite append_assoc. repeat split; [done|].
    rewrite string_forall_app, andb_true_iff. split.
    + eapply string_forall_impl; [|exact Hp1]. cbn. intros c ->. done.
    + eapply string_forall_impl; [|exact Hp2]. cbn. intros c ->. apply orb_true_r.
  - destruct (rmatch r1 s g k) as [y|] eqn:H1.
    + intros [= ->]. apply IH1 in H1 as (m & rest & g' & -> & H & Hp).
      exists m, rest, g'. repeat split; [done|].
      eapply string_forall_impl; [|exact Hp]. cbn. intros c ->. done.
    + intros H. apply IH2 in H as (m & rest & g' & -> & H & Hp).
      exists m, rest, g'. repeat split; [done|].
      eapply string_forall_impl; [|exact Hp]. cbn. intros c ->. apply orb_true_r.
  - destruct s as [|c' s]; [done|]. destruct (p c') eqn:Hp; [|done].
    intros H. apply match_more_sound in H as (m' & rest & -> & H & Hm).
    exists (String c' m'), rest, g. repeat split; [done|].
    cbn. by rewrite Hp.
  - intros H. apply IH1 in H as (m & rest & g' & -> & H & Hp).
    exists m, rest, ((name, m) :: g'). by repeat split.
Qed.
End Soundness.

Lemma alphabet_format_regex c :
  alphabet format_regex c = true -> date_char c = true.
Proof.
  destruct c as [[] [] [] [] [] [] [] []]; vm_compute; congruence.
Qed.

Lemma strptime_date_chars s dt :
  strptime (VStr s) = Ok dt -> string_forall date_char s = true.
Proof.
  unfold strptime.
  destruct (re_match format_regex s) as [[found rest]|] eqn:Hm; [|done].
  destruct rest; [|done]. intros _. unfold re_match in Hm.
  apply rmatch_sound in Hm as (m & rest & g' & -> & [= _ ->] & Hp).
  rewrite append_nil_r.
  eapply string_forall_impl; [apply alphabet_format_regex|exact Hp].
Qed.

Lemma string_exists_stray s :
  string_exists stray_char s = true -> string_forall date_char s = false.
Proof.
  induction s as [|c s IH]; simpl; [done|].
  unfold stray_char at 1.
  destruct (date_char c); simpl; [|done]. by rewrite andb_false_r.
Qed.

(** X: a "Create Date" cell that holds an ASCII character other than a
    digit, a hyphen, a colon or white space (a letter, a slash, a point)
    leaves createDate empty. *)
Theorem createDate_foreign_character row record s :
  normalize row = Ok record ->
  row !! "Create Date" = Some (Text s) ->
  string_exists stray_char s = true ->
  dict_get record "createDate" = Some (VStr EmptyString).
Proof.
  intros Hn Hr Hs. apply normalize_inv in Hn as (n & _ & ->).
  rewrite dict_get_createDate, (get_Text _ _ _ _ Hr).
  destruct (strptime (VStr s)) as [dt|] eqn:Hp; [|done].
  apply strptime_date_chars in Hp. apply string_exists_stray in Hs. congruence.
Qed.

Lemma createDate_not_reread v :
  strptime (VStr match strptime v with
                 | Ok dt => isoformat dt +:+ "Z"
                 | Raise _ => EmptyString
                 end) = Raise ValueError.
Proof.
  destruct (strptime v) as [dt|]; [|reflexivity].
  destruct (strptime (VStr (isoformat dt +:+ "Z"))) as [dt'|e] eqn:H.
  - apply strptime_date_chars in H.
    rewrite string_forall_app, andb_true_iff in H. by destruct H as [_ H].
  - unfold strptime in H. repeat case_match; congruence.
Qed.

(** X: createDate is never text the script itself would read as a date;
    a record's createDate put back as the "Create Date" cell of any row
    gives an empty createDate. *)
Theorem createDate_not_idempotent row record out row' record' :
  normalize row = Ok record ->
  dict_get record "createDate" = Some (VStr out) ->
  normalize (<["Create Date" := Text out]> row') = Ok record' ->
  dict_get record' "createDate" = Some (VStr EmptyString).
Proof.
  intros Hn Hg Hn'. apply normalize_inv in Hn as (n & _ & ->).
  apply normalize_inv in Hn' as (n' & _ & ->).
  rewrite dict_get_createDate in Hg. injection Hg as <-.
  rewrite dict_get_createDate.
  rewrite (get_Text _ "Create Date" _ _ (lookup_insert_eq row' _ _)).
  by rewrite createDate_not_reread.
Qed.

(** ** The loop over several readers *)

Lemma loop_app r1 : forall r2 data,
  loop (r1 ++ r2) data = loop r1 data ≫= loop r2.
Proof.
  induction r1 as [|row r1 IH]; intros r2 data; [done|].
  cbn [app loop]. destruct (normalize row); [apply IH|done].
Qed.

Lemma loop_all_ok reader : forall data,
  Forall (fun row => exists record, normalize row = Ok record) reader ->
  exists records, loop reader data = Ok (data ++ records) /\
    Forall2 (fun row record => normalize row = Ok record) reader records.
Proof.
  induction reader as [|row reader IH]; intros data HF.
  - exists []. by rewrite app_nil_r.
  - apply Forall_cons in HF as [[record Hr] HF]. cbn [loop]. rewrite Hr.
    destruct (IH (data ++ [record]) HF) as (records & -> & H2).
    exists (record :: records). rewrite <- app_assoc. split; [done|].
    by constructor.
Qed.

(** X: the exception of a run is that of the first row that raises: the
    rows before it are processed, the rows after it are never looked
    at. *)
Theorem main_first_failure good row rest e :
  Forall (fun r => exists record, normalize r = Ok record) good ->
  normalize row = Raise e ->
  main (good ++ row :: rest) = Raise e.
Proof.
  intros HF Hr. unfold main. rewrite loop_app.
  destruct (loop_all_ok good [] HF) as (records & -> & _).
  cbn. by rewrite Hr.
Qed.

(** X: a run writes its output exactly when every row has a blank or
    numeric "Number of Form Submissions" cell, and the output is then the
    dump of the records of the rows, in order. *)
Theorem main_writes_iff reader :
  (exists out, main reader = Ok out) <-> Forall numeric_or_blank reader.
Proof.
  unfold main. split.
  - intros [out H]. pose proof (loop_spec reader []) as Hs.
    destruct (loop reader []) as [data|]; [|done].
    destruct Hs as (records & _ & HF).
    apply Forall_forall. intros row Hin.
    apply list_elem_of_lookup in Hin as [i Hi].
    destruct (Forall2_lookup_l _ _ _ _ _ HF Hi) as (record & _ & Hn).
    apply normalize_ok_iff. eauto.
  - intros HF.
    assert (HF' : Forall (fun row => exists record, normalize row = Ok record) reader).
    { eapply Forall_impl; [exact HF|]. intros row. apply normalize_ok_iff. }
    destruct (loop_all_ok reader [] HF') as (records & -> & _). cbn. eauto.
Qed.

(** X: reading two lists of rows one after the other gives the records
    of the first followed by the records of the second; if either raises
    so does the whole. *)
Theorem loop_concatenates r1 r2 :
  loop (r1 ++ r2) [] =
  d1 ← loop r1 []; d2 ← loop r2 []; mret (d1 ++ d2).
Proof.
  rewrite loop_app.
  pose proof (loop_spec r1 []) as H1.
  destruct (loop r1 []) as [d1|e]; [|done]. cbn [mbind result_bind].
  pose proof (loop_spec r2 d1) as H2. pose proof (loop_spec r2 []) as H3.
  destruct (loop r2 d1) as [d|e] eqn:E2.
  - destruct H2 as (records & -> & HF).
    destruct (loop r2 []) as [d2|e'].
    + destruct H3 as (records' & -> & HF'). cbn.
      assert (records = records') as ->; [|done].
      clear -HF HF'. revert records' HF'.
      induction HF as [|row rec rows recs Hr _ IH]; intros ? HF'; inversion HF'; subst; [done|].
      f_equal; [congruence|by apply IH].
    + destruct H3 as (row & Hin & Hr). exfalso.
      apply list_elem_of_lookup in Hin as [i Hi].
      destruct (Forall2_lookup_l _ _ _ _ _ HF Hi) as (? & _ & ?). congruence.
  - destruct H2 as (row & Hin & Hr).
    destruct (loop r2 []) as [d2|e'] eqn:E3.
    + destruct H3 as (records' & -> & HF'). exfalso.
      apply list_elem_of_lookup in Hin as [i Hi].
      destruct (Forall2_lookup_l _ _ _ _ _ HF' Hi) as (? & _ & ?). congruence.
    + cbn. f_equal.
      (* the same first failure *)
      clear -E2 E3. revert d1 E2 E3. generalize (@nil dict).
      induction r2 as [|row r2 IH]; intros a d1; cbn [loop]; [done|].
      destruct (normalize row); [apply IH|congruence].
Qed.

Section Numerals.
Local Open Scope Z_scope.

(** ** Whole numbers *)

(** Reading the digits of a decimal numeral, after a digit that is not
    zero. *)
Lemma read_digits_of_uint_acc d : forall acc n rest,
  read_digits (Z.pos acc) n (NilEmpty.string_of_uint d +:+ rest) =
  read_digits (Z.pos (Pos.of_uint_acc d acc)) (n + Decimal.nb_digits d) rest.
Proof.
  induction d; intros acc n rest; cbn [NilEmpty.string_of_uint Pos.of_uint_acc Decimal.nb_digits];
    rewrite ?append_String, ?append_nil_l;
    [by rewrite Nat.add_0_r|..];
    cbn [read_digits]; change (is_digit _) with true; cbv iota;
    rewrite <- Nat.add_succ_comm, <- IHd; f_equal; vm_compute digit_val; lia.
Qed.

Lemma read_digits_of_uint d : forall n rest,
  read_digits 0 n (NilEmpty.string_of_uint d +:+ rest) =
  read_digits (Z.of_N (Pos.of_uint d)) (n + Decimal.nb_digits d) rest.
Proof.
  induction d; intros n rest; cbn [NilEmpty.string_of_uint Pos.of_uint Decimal.nb_digits];
    rewrite ?append_String, ?append_nil_l;
    [by rewrite Nat.add_0_r|..];
    cbn [read_digits]; change (is_digit _) with true; cbv iota;
    rewrite <- Nat.add_succ_comm;
    [apply IHd|..]; apply (read_digits_of_uint_acc d).
Qed.

(** A whole number below 2^53 is a binary64: rounding keeps it and [int]
    gives it back. *)
Lemma py_int_binary64_exact neg n d :
  0 <= n < 2 ^ 53 -> 0 < d ->
  py_int (binary64_of_ratio neg (n * d) d) = Ok (if neg then - n else n).
Proof.
  intros Hn Hd. unfold binary64_of_ratio.
  destruct (Z.eqb_spec (n * d) 0) as [H0|H0].
  { assert (n = 0) as -> by nia. by destruct neg. }
  assert (Hn1 : 1 <= n) by nia.
  set (e0 := Z.log2 (n * d) - Z.log2 d - 52).
  destruct (scaled (n * d) d e0) as [n0 d0] eqn:Hs0.
  set (e1 := if n0 / d0 <? 2 ^ 52 then e0 - 1 else e0).
  assert (He1 : -53 <= e1 <= 0).
  { pose proof (Z.log2_spec (n * d) ltac:(nia)) as [Ha Hb].
    pose proof (Z.log2_spec d Hd) as [Hc He].
    pose proof (Z.log2_nonneg (n * d)). pose proof (Z.log2_nonneg d).
    assert (Hmono : Z.log2 d <= Z.log2 (n * d)) by (apply Z.log2_le_mono; nia).
    assert (Hlo : -52 <= e0) by (unfold e0; lia).
    assert (Hhi : e0 <= 1).
    { destruct (Z_le_gt_dec e0 1) as [|Hgt]; [done|exfalso].
      assert (Z.log2 d + 54 <= Z.log2 (n * d)) by (unfold e0 in Hgt; lia).
      assert (H54 : 2 ^ (Z.log2 d + 54) <= 2 ^ Z.log2 (n * d))
        by (apply Z.pow_le_mono_r; lia).
      rewrite Z.pow_add_r in H54 by lia.
      rewrite Z.pow_succ_r in He by lia.
      assert (n * d < 2 ^ 53 * (2 * 2 ^ Z.log2 d))
        by (apply Z.mul_lt_mono_nonneg; lia).
      change (2 ^ 54) with (2 ^ 53 * 2) in H54. lia. }
    unfold e1. destruct (Z.ltb_spec (n0 / d0) (2 ^ 52)) as [Hlt|Hge]; [lia|].
    split; [lia|].
    destruct (Z_le_gt_dec e0 0) as [|Hgt]; [done|exfalso].
    assert (e0 = 1) as He0 by lia. unfold scaled in Hs0. rewrite He0 in Hs0.
    cbn in Hs0. injection Hs0 as <- <-.
    assert (n * d < 2 ^ 52 * (d * 2)); [|].
    { change (2 ^ 52 * (d * 2)) with (2 ^ 52 * (d * 2)).
      replace (2 ^ 52 * (d * 2)) with (2 ^ 53 * d) by (change (2 ^ 53) with (2 ^ 52 * 2); ring).
      nia. }
    assert (n * d / (d * 2 ^ 1) < 2 ^ 52); [|lia].
    apply Z.div_lt_upper_bound; [lia|]. change (2 ^ 1) with 2. lia. }
  fold e1. replace (Z.max e1 (-1074)) with e1 by lia.
  unfold scaled. destruct (Z.leb_spec 0 e1) as [Hz|Hneg].
  - assert (e1 = 0) as -> by lia. cbn [Z.pow Z.mul].
    rewrite Z.pow_0_r, Z.mul_1_r.
    unfold round_half_even. rewrite Z.div_mul, Z.mod_mul by lia. cbn.
    replace (2 * 0 <? d) with true by (symmetry; apply Z.ltb_lt; lia).
    cbn. change (n * 1) with (n * 1). rewrite Z.mul_1_r. done.
  - assert (Hp : 0 < 2 ^ (- e1)) by (apply Z.pow_pos_nonneg; lia).
    replace (n * d * 2 ^ (- e1)) with (n * 2 ^ (- e1) * d) by ring.
    unfold round_half_even. rewrite Z.div_mul, Z.mod_mul by lia.
    replace (2 * 0 <? d) with true by (symmetry; apply Z.ltb_lt; lia).
    destruct ((971 <? e1) || (e1 =? 971) && (n * 2 ^ (- e1) =? 2 ^ 53)) eqn:Hov.
    { exfalso. apply orb_true_iff in Hov as [H|H].
      - apply Z.ltb_lt in H. lia.
      - apply andb_true_iff in H as [H _]. apply Z.eqb_eq in H. lia. }
    unfold py_int. replace (0 <=? e1) with false by (symmetry; apply Z.leb_gt; lia).
    by rewrite Z.div_mul by lia.
Qed.

Lemma plain_char_facts c :
  plain_char c = true ->
  Py_ISSPACE c = false /\ (code c <? 128) = true /\ Ascii.eqb c "_" = false.
Proof.
  unfold plain_char. rewrite !andb_true_iff, !negb_true_iff. tauto.
Qed.

Lemma is_digit_plain c : is_digit c = true -> plain_char c = true.
Proof. destruct c as [[] [] [] [] [] [] [] []]; vm_compute; congruence. Qed.

Lemma is_digit_facts c :
  is_digit c = true ->
  Ascii.eqb c "." = false /\
  forall r, read_sign (String c r) = (false, String c r).
Proof. destruct c as [[] [] [] [] [] [] [] []]; vm_compute; intuition congruence. Qed.

Lemma string_of_uint_digits d :
  string_forall is_digit (NilEmpty.string_of_uint d) = true.
Proof. induction d; cbn; auto. Qed.

End Numerals.

Section Plain.
Context (t : string) (Ht : string_forall plain_char t = true).

Lemma plain_is_ascii : is_ascii t = true.
Proof.
  revert Ht. induction t as [|c r IH]; [done|]. cbn.
  rewrite !andb_true_iff. intros [Hc Hr].
  by destruct (plain_char_facts c Hc) as (_ & -> & _); auto.
Qed.

Lemma plain_no_underscore : has_underscore t = false.
Proof.
  revert Ht. induction t as [|c r IH]; [done|]. cbn.
  rewrite andb_true_iff. intros [Hc Hr].
  destruct (plain_char_facts c Hc) as (_ & _ & ->). auto.
Qed.

Lemma plain_lstrip : lstrip t = t.
Proof.
  revert Ht. destruct t as [|c r]; [done|]. cbn.
  rewrite andb_true_iff. intros [Hc Hr].
  by destruct (plain_char_facts c Hc) as (-> & _).
Qed.

(** [float] hands such a text to the parser unchanged. *)
Lemma float_from_string_plain :
  float_from_string t =
  match ascii_strtod t with
  | Some (x, EmptyString) => Ok x
  | _ => Raise ValueError
  end.
Proof.
  unfold float_from_string, transform_decimal_and_space.
  rewrite plain_is_ascii, plain_no_underscore.
  unfold float_from_string_inner. rewrite plain_lstrip.
  destruct t as [|c r]; [done|]. cbn [rstrip].
  cbn [string_forall] in Ht. apply andb_true_iff in Ht as [_ Hr].
  assert (rstrip_all r = r) as ->; [|done].
  clear -Hr. induction r as [|c r IH]; [done|]. cbn in *.
  apply andb_true_iff in Hr as [Hc Hr]. rewrite (IH Hr).
  destruct (plain_char_facts c Hc) as (-> & _). by destruct r.
Qed.
End Plain.

Section WholeNumbers.
Local Open Scope Z_scope.

Lemma read_digits_zeros k : forall acc n rest,
  read_digits acc n (zeros k +:+ rest) = read_digits (acc * 10 ^ Z.of_nat k) (n + k) rest.
Proof.
  induction k as [|k IH]; intros acc n rest.
  - rewrite append_nil_l, Z.mul_1_r, Nat.add_0_r. done.
  - cbn [zeros]. rewrite append_String. cbn [read_digits].
    change (is_digit "0") with true. cbv iota. rewrite IH.
    rewrite Nat2Z.inj_succ, Z.pow_succ_r by lia.
    rewrite <- Nat.add_succ_comm. f_equal. vm_compute digit_val. ring.
Qed.

Lemma string_forall_zeros p k : p "0"%char = true -> string_forall p (zeros k) = true.
Proof. intros H. induction k; cbn; [done|]. by rewrite H. Qed.

(** The text of a whole number: a sign when it is negative, then the
    digits, of which there is at least one. *)
Lemma string_of_Z_digits n :
  exists d, d <> Decimal.Nil /\ Z.of_N (Pos.of_uint d) = Z.abs n /\
    string_of_Z n =
    (if n <? 0 then "-" else EmptyString) +:+ NilEmpty.string_of_uint d.
Proof.
  unfold string_of_Z. destruct n as [|p|p]; cbn [Z.to_int NilZero.string_of_int Z.ltb Z.compare].
  - exists (Decimal.D0 Decimal.Nil). by repeat split.
  - exists (Pos.to_uint p). split; [apply Unsigned.to_uint_nonnil|].
    split; [by rewrite Unsigned.of_to|].
    unfold NilZero.string_of_uint.
    pose proof (Unsigned.to_uint_nonnil p). by destruct (Pos.to_uint p).
  - exists (Pos.to_uint p). split; [apply Unsigned.to_uint_nonnil|].
    split; [by rewrite Unsigned.of_to|].
    unfold NilZero.string_of_uint.
    pose proof (Unsigned.to_uint_nonnil p). by destruct (Pos.to_uint p).
Qed.

Lemma nb_digits_pos d : d <> Decimal.Nil -> (0 < Decimal.nb_digits d)%nat.
Proof. destruct d; cbn; [done|lia..]. Qed.

(** The parser on a whole number followed by [frac], which is nothing or
    a point and zeros. *)
Lemma dg_strtod_whole n k (point : bool) :
  dg_strtod (string_of_Z n +:+ (if point then "." +:+ zeros k else EmptyString)) =
  Some (binary64_of_decimal (n <? 0) (Z.abs n * 10 ^ Z.of_nat (if point then k else 0))
          (- Z.of_nat (if point then k else 0)), EmptyString).
Proof.
  destruct (string_of_Z_digits n) as (d & Hd & Hv & ->).
  assert (Hsign : read_sign ((if n <? 0 then "-" else EmptyString)
                     +:+ NilEmpty.string_of_uint d
                     +:+ (if point then "." +:+ zeros k else EmptyString)) =
                  (n <? 0, NilEmpty.string_of_uint d
                     +:+ (if point then "." +:+ zeros k else EmptyString))).
  { destruct (n <? 0); [reflexivity|]. rewrite append_nil_l.
    pose proof (string_of_uint_digits d) as Hdig.
    destruct d; try done; cbn in Hdig |- *; reflexivity. }
  unfold dg_strtod. rewrite append_assoc, Hsign.
  rewrite read_digits_of_uint, Hv. pose proof (nb_digits_pos d Hd) as Hnb.
  destruct point.
  - rewrite !append_String, append_nil_l. cbn [read_digits].
    change (is_digit ".") with false. cbv iota.
    rewrite <- (append_nil_r (zeros k)), read_digits_zeros. cbn [read_digits].
    destruct (0 + Decimal.nb_digits d + (0 + k))%nat eqn:E; [lia|].
    cbn [read_exponent]. do 3 f_equal; lia.
  - cbn [read_digits].
    destruct (0 + Decimal.nb_digits d + 0)%nat eqn:E; [lia|].
    cbn [read_exponent]. change (10 ^ Z.of_nat 0) with 1. by rewrite Z.mul_1_r.
Qed.

Lemma int_float_whole n k (point : bool) :
  - 2 ^ 53 < n < 2 ^ 53 ->
  int_float (VStr (string_of_Z n +:+ (if point then "." +:+ zeros k else EmptyString))) = Ok n.
Proof.
  intros Hn. unfold int_float, py_float.
  rewrite float_from_string_plain.
  2:{ destruct (string_of_Z_digits n) as (d & _ & _ & ->).
      rewrite !string_forall_app, !andb_true_iff. repeat split.
      - by destruct (n <? 0).
      - eapply string_forall_impl; [apply is_digit_plain|apply string_of_uint_digits].
      - destruct point; [|done]. rewrite string_forall_app.
        by rewrite string_forall_zeros. }
  unfold ascii_strtod. rewrite dg_strtod_whole. cbn [mbind result_bind].
  set (j := Z.of_nat (if point then k else 0)).
  assert (Hj : 0 <= j) by (unfold j; lia).
  assert (Hp : 0 < 10 ^ j) by (apply Z.pow_pos_nonneg; lia).
  unfold binary64_of_decimal.
  destruct (Z.leb_spec 0 (- j)) as [H0|H0].
  - assert (j = 0) as -> by lia. cbn [Z.opp]. rewrite Z.pow_0_r, Z.mul_1_r.
    rewrite py_int_binary64_exact by lia. f_equal.
    destruct (Z.ltb_spec n 0); lia.
  - rewrite Z.opp_involutive, py_int_binary64_exact by lia. f_equal.
    destruct (Z.ltb_spec n 0); lia.
Qed.

(** X: a whole number of magnitude below 2^53 written in plain decimal,
    with or without a point followed by zeros, is kept exactly. *)
Theorem formSubmissions_whole_numbers row n k :
  - 2 ^ 53 < n < 2 ^ 53 ->
  row !! "Number of Form Submissions" = Some (Text (string_of_Z n)) \/
  row !! "Number of Form Submissions" = Some (Text (string_of_Z n +:+ "." +:+ zeros k)) ->
  yields_formSubmissions row n.
Proof.
  intros Hn [Hr|Hr].
  - eapply normalize_text; [exact Hr| |].
    + pose proof (int_float_whole n 0 false Hn) as H. by rewrite append_nil_r in H.
    + destruct (string_of_Z_digits n) as (d & Hd & _ & ->).
      destruct (n <? 0); [done|]. by destruct d.
  - eapply normalize_text; [exact Hr| |].
    + exact (int_float_whole n k true Hn).
    + destruct (string_of_Z_digits n) as (d & Hd & _ & ->).
      destruct (n <? 0); [done|]. by destruct d.
Qed.
End WholeNumbers.

(** ** The text written *)

Lemma escape_char_printable c : string_forall printable (escape_char c) = true.
Proof. destruct c as [[] [] [] [] [] [] [] []]; vm_compute; reflexivity. Qed.

Lemma escape_printable s : string_forall printable (escape s) = true.
Proof.
  induction s as [|c s IH]; [done|]. cbn [escape].
  by rewrite string_forall_app, escape_char_printable, IH.
Qed.

Lemma json_string_printable s : string_forall printable (json_string s) = true.
Proof.
  unfold json_string. rewrite append_String. cbn [string_forall].
  by rewrite string_forall_app, escape_printable.
Qed.

Lemma is_digit_printable c : is_digit c = true -> printable c = true.
Proof. destruct c as [[] [] [] [] [] [] [] []]; vm_compute; congruence. Qed.

Lemma string_of_Z_printable n : string_forall printable (string_of_Z n) = true.
Proof.
  destruct (string_of_Z_digits n) as (d & _ & _ & ->).
  rewrite string_forall_app, andb_true_iff. split; [by destruct (n <? 0)%Z|].
  eapply string_forall_impl; [apply is_digit_printable|apply string_of_uint_digits].
Qed.

Lemma json_value_printable v : string_forall printable (json_value v) = true.
Proof.
  destruct v as [|[]|n|s]; try done;
    [apply string_of_Z_printable|apply json_string_printable].
Qed.

Lemma spaces_printable n : string_forall printable (spaces n) = true.
Proof. induction n; [done|]. cbn. done. Qed.

Lemma printable_output s :
  string_forall printable s = true -> string_forall output_char s = true.
Proof. apply string_forall_impl. unfold output_char. by intros c ->. Qed.

Lemma newline_indent_output level :
  string_forall output_char (newline_indent level) = true.
Proof. unfold newline_indent. cbn. apply printable_output, spaces_printable. Qed.

Lemma join_forall p sep l :
  string_forall p sep = true ->
  Forall (fun x => string_forall p x = true) l ->
  string_forall p (join sep l) = true.
Proof.
  intros Hs. induction 1 as [|x l Hx Hl IH]; [done|].
  cbn [join]. destruct l as [|y l]; [done|].
  by rewrite !string_forall_app, Hx, Hs, IH.
Qed.

Lemma json_member_printable (kv : string * value) :
  string_forall printable (json_string kv.1 +:+ ": " +:+ json_value kv.2) = true.
Proof.
  by rewrite !string_forall_app, json_string_printable, json_value_printable.
Qed.

Lemma json_object_output level d :
  string_forall output_char (json_object level d) = true.
Proof.
  unfold json_object. destruct d as [|kv d]; [done|].
  rewrite !string_forall_app, !newline_indent_output. cbn [string_forall andb].
  rewrite join_forall; [done| |].
  - by rewrite string_forall_app, newline_indent_output.
  - apply Forall_forall. intros x Hx. apply list_elem_of_fmap in Hx as (kv' & -> & _).
    apply printable_output, json_member_printable.
Qed.

Lemma json_dumps_output data :
  string_forall output_char (json_dumps data) = true.
Proof.
  unfold json_dumps. destruct data as [|d data]; [done|].
  rewrite !string_forall_app, !newline_indent_output. cbn [string_forall andb].
  rewrite join_forall; [done| |].
  - by rewrite string_forall_app, newline_indent_output.
  - apply Forall_forall. intros x Hx. apply list_elem_of_fmap in Hx as (d' & -> & _).
    apply json_object_output.
Qed.

(** X: whatever the cells hold, the text written is 7-bit ASCII: it
    holds printable characters and line feeds only. *)
Theorem output_is_ascii reader out :
  main reader = Ok out -> string_forall output_char out = true.
Proof.
  unfold main. destruct (loop reader []) as [data|]; [|done].
  intros [= <-]. apply json_dumps_output.
Qed.

(** Lines *)

Lemma count_char_app c a b :
  count_char c (a +:+ b) = count_char c a + count_char c b.
Proof.
  induction a as [|x a IH]; [done|]. rewrite append_String. cbn. rewrite IH. lia.
Qed.

Lemma count_newline_printable s :
  string_forall printable s = true -> count_char "010" s = 0.
Proof.
  induction s as [|c s IH]; [done|]. cbn. rewrite andb_true_iff. intros [Hc Hs].
  rewrite (IH Hs). destruct (Ascii.eqb_spec c "010") as [->|]; [done|lia].
Qed.

Lemma count_newline_indent level : count_char "010" (newline_indent level) = 1.
Proof.
  unfold newline_indent. cbn. by rewrite count_newline_printable by apply spaces_printable.
Qed.

Lemma count_newline_join sep l n :
  count_char "010" sep = 1 ->
  Forall (fun x => count_char "010" x = n) l ->
  count_char "010" (join sep l) = length l * n + pred (length l).
Proof.
  intros Hs. induction 1 as [|x l Hx Hl IH]; [done|].
  cbn [join]. destruct l as [|y l]; [cbn; lia|].
  rewrite !count_char_app, Hx, Hs, IH. cbn [length]. lia.
Qed.

Lemma count_newline_object d :
  d <> [] -> count_char "010" (json_object 1 d) = S (length d).
Proof.
  intros Hd. unfold json_object. destruct d as [|kv d]; [done|].
  rewrite !count_char_app, !count_newline_indent.
  rewrite (count_newline_join _ _ 0).
  - rewrite length_map. cbn. lia.
  - rewrite count_char_app, count_newline_indent. done.
  - apply Forall_forall. intros x Hx. apply list_elem_of_fmap in Hx as (kv' & -> & _).
    apply count_newline_printable, json_member_printable.
Qed.

(** X: the output has one line for each bracket of the array and twenty
    lines for each row: the braces and one line per field. *)
Theorem output_lines reader out :
  main reader = Ok out -> reader <> [] ->
  count_char "010" out = 20 * length reader + 1.
Proof.
  unfold main. pose proof (loop_spec reader []) as Hs.
  destruct (loop reader []) as [data|]; [|done].
  destruct Hs as (records & -> & HF). intros [= <-] Hne.
  cbn [app]. rewrite (Forall2_length _ _ _ HF).
  unfold json_dumps. destruct records as [|r records].
  { apply Forall2_nil_inv_r in HF. done. }
  rewrite !count_char_app, !count_newline_indent.
  rewrite (count_newline_join _ _ 19).
  - rewrite length_map. cbn. lia.
  - by rewrite count_char_app, count_newline_indent.
  - apply Forall_forall. intros x Hx. apply list_elem_of_fmap in Hx as (d & -> & Hd).
    apply list_elem_of_lookup in Hd as [i Hi].
    destruct (Forall2_lookup_r _ _ _ _ _ HF Hi) as (row & _ & Hn).
    apply normalize_inv in Hn as (n & _ & ->).
    by rewrite count_newline_object.
Qed.

(** ** What the number parser is given *)

Section Kept.
Context (p : ascii -> bool) (Hq : p "?"%char = true) (Hsp : p " "%char = true).

Lemma transform_chars_forall s :
  string_forall p s = true -> string_forall p (transform_chars s) = true.
Proof.
  induction s as [|c s IH]; [done|]. cbn. rewrite andb_true_iff. intros [Hc Hs].
  repeat case_match; cbn; rewrite ?Hc, ?Hsp, ?Hq; auto.
Qed.

Lemma lstrip_forall s :
  string_forall p s = true -> string_forall p (lstrip s) = true.
Proof.
  induction s as [|c s IH]; [done|]. cbn. rewrite andb_true_iff. intros [Hc Hs].
  case_match; [auto|]. cbn. by rewrite Hc.
Qed.

Lemma rstrip_all_forall s :
  string_forall p s = true -> string_forall p (rstrip_all s) = true.
Proof.
  induction s as [|c s IH]; [done|]. cbn. rewrite andb_true_iff. intros [Hc Hs].
  specialize (IH Hs). destruct (rstrip_all s); [case_match|]; cbn in *; rewrite ?Hc; auto.
Qed.

Lemma rstrip_forall s :
  string_forall p s = true -> string_forall p (rstrip s) = true.
Proof.
  destruct s as [|c s]; [done|]. cbn. rewrite !andb_true_iff.
  intros [Hc Hs]. auto using rstrip_all_forall.
Qed.

Lemma drop_underscores_forall s : forall prev dup,
  drop_underscores prev s = Some dup ->
  string_forall p s = true -> string_forall p dup = true.
Proof.
  induction s as [|c s IH]; intros prev dup; cbn [drop_underscores string_forall].
  - destruct (Ascii.eqb prev "_"); [done|]. by intros [= <-].
  - destruct (Ascii.eqb c "_").
    + destruct (is_digit prev); [|done]. intros Hd Hs.
      apply andb_true_iff in Hs as [_ Hs]. eauto.
    + destruct (Ascii.eqb prev "_" && negb (is_digit c)); [done|].
      destruct (drop_underscores c s) as [v|] eqn:Hv; [|done].
      intros [= <-] Hs. apply andb_true_iff in Hs as [Hc Hs].
      cbn. rewrite Hc. eauto.
Qed.

(** The text [float] hands to the parser holds no character of a kind
    that the cell did not hold. *)
Lemma float_from_string_input s x :
  float_from_string s = Ok x ->
  exists t, ascii_strtod t = Some (x, EmptyString) /\
    (string_forall p s = true -> string_forall p t = true).
Proof.
  unfold float_from_string.
  assert (Ht : string_forall p s = true ->
               string_forall p (transform_decimal_and_space s) = true).
  { unfold transform_decimal_and_space. case_match; auto using transform_chars_forall. }
  assert (Hi : forall u, float_from_string_inner u = Ok x ->
    exists t, ascii_strtod t = Some (x, EmptyString) /\
      (string_forall p u = true -> string_forall p t = true)).
  { intros u. unfold float_from_string_inner.
    destruct (ascii_strtod (rstrip (lstrip u))) as [[y [|]]|] eqn:E; try done.
    intros [= ->]. exists (rstrip (lstrip u)). split; [done|].
    auto using rstrip_forall, lstrip_forall. }
  destruct (has_underscore _).
  - destruct (drop_underscores _ _) as [dup|] eqn:Hd; [|done].
    intros H. apply Hi in H as (t & Hs & Hp). exists t. split; [done|].
    intros H. apply Hp. eapply drop_underscores_forall; eauto.
  - intros H. apply Hi in H as (t & Hs & Hp). exists t. split; [done|]. auto.
Qed.
End Kept.

Lemma read_digits_count s : forall acc n v n' r,
  read_digits acc n s = (v, n', r) ->
  (n' = n /\ r = s) \/ (exists c s', s = String c s' /\ is_digit c = true).
Proof.
  destruct s as [|c s]; intros acc n v n' r; cbn.
  - intros [= _ <- <-]. by left.
  - destruct (is_digit c) eqn:Hc; [right; eauto|]. intros [= _ <- <-]. by left.
Qed.

Lemma read_sign_cases s sign r :
  read_sign s = (sign, r) ->
  (sign = false /\ (r = s \/ s = String "+" r)) \/ (sign = true /\ s = String "-" r).
Proof.
  destruct s as [|c s]; cbn; [intros [= <- <-]; auto|].
  destruct (Ascii.eqb_spec c "-") as [->|H1]; [intros [= <- <-]; auto|].
  destruct (Ascii.eqb_spec c "+") as [->|H2]; [intros [= <- <-]; auto|].
  destruct c as [[] [] [] [] [] [] [] []]; try (intros [= <- <-]; auto); by exfalso.
Qed.

(** The parser reads a number only from a text that holds a digit, and a
    negative one only from a text that starts with a minus sign. *)
Lemma dg_strtod_needs t x rest :
  dg_strtod t = Some (x, rest) ->
  string_forall not_digit t = false /\
  (forall m e, x = Finite true m e -> exists r, t = String "-" r).
Proof.
  unfold dg_strtod.
  destruct (read_sign t) as [sign t1] eqn:Hsign.
  destruct (read_digits 0 0 t1) as [[ipart nd0] t2] eqn:H1.
  destruct (match t2 with String "." r => read_digits ipart 0 r | _ => (ipart, 0%nat, t2) end)
    as [[m fraclen] t3] eqn:H2.
  destruct (nd0 + fraclen)%nat eqn:Hn; [done|].
  destruct (read_exponent t3) as [e t4]. intros [= <- <-]. split.
  - assert (Hd : string_forall not_digit t1 = false).
    { apply read_digits_count in H1 as [[-> ->]|(c & s' & -> & Hc)].
      - destruct t1 as [|c r]; [injection H2 as <- <- <-; lia|].
        destruct (Ascii.eqb_spec c ".") as [->|Hne].
        + apply read_digits_count in H2 as [[-> _]|(c' & s' & -> & Hc)]; [lia|].
          cbn. unfold not_digit at 2. by rewrite Hc.
        + assert (fraclen = 0%nat); [|lia].
          destruct c as [[] [] [] [] [] [] [] []]; try (by injection H2); by exfalso.
      - cbn. unfold not_digit at 1. by rewrite Hc. }
    apply read_sign_cases in Hsign as [[_ [->| ->]]|[_ ->]]; [done|cbn..]; by rewrite Hd.
  - intros m' e' Hx.
    assert (sign = true) as ->.
    { unfold binary64_of_decimal, binary64_of_ratio in Hx.
      repeat case_match; congruence. }
    apply read_sign_cases in Hsign as [[? _]|[_ ->]]; [done|eauto].
Qed.

Lemma ascii_strtod_needs t neg m e rest :
  ascii_strtod t = Some (Finite neg m e, rest) ->
  string_forall not_digit t = false /\ (neg = true -> exists r, t = String "-" r).
Proof.
  unfold ascii_strtod. destruct (dg_strtod t) as [[x r]|] eqn:Hd.
  - intros [= -> ->]. apply dg_strtod_needs in Hd as [H1 H2]. split; [done|].
    intros ->. eauto.
  - intros H. by apply parse_inf_or_nan_not_finite in H.
Qed.

Lemma form_submissions_finite row s n :
  row !! "Number of Form Submissions" = Some (Text s) -> s <> EmptyString ->
  form_submissions row = Ok n ->
  exists neg m e, float_from_string s = Ok (Finite neg m e) /\
    py_int (Finite neg m e) = Ok n.
Proof.
  intros Hr Hne. rewrite (form_submissions_text _ _ Hr Hne).
  unfold int_float, py_float. destruct (float_from_string s) as [[neg m e| |]|]; try done.
  intros H. by exists neg, m, e.
Qed.

(** X: a cell of ASCII text that is not empty and holds no digit never
    gives a count: the row raises. *)
Theorem formSubmissions_needs_digit row s :
  row !! "Number of Form Submissions" = Some (Text s) -> s <> EmptyString ->
  is_ascii s = true -> string_forall not_digit s = true ->
  exists e, normalize row = Raise e.
Proof.
  intros Hr Hne _ Hs. destruct (normalize row) as [record|e] eqn:Hn; [|eauto].
  exfalso. apply normalize_inv in Hn as (n & Hf & _).
  destruct (form_submissions_finite _ _ _ Hr Hne Hf) as (neg & m & e & Hx & _).
  apply (float_from_string_input not_digit) in Hx as (t & Ht & Hp); [|done..].
  apply ascii_strtod_needs in Ht as [Hd _]. by rewrite (Hp Hs) in Hd.
Qed.

(** X: a cell without a minus sign never gives a negative count. *)
Theorem formSubmissions_negative_needs_minus row s n :
  row !! "Number of Form Submissions" = Some (Text s) ->
  string_forall not_minus s = true ->
  yields_formSubmissions row n -> (0 <= n)%Z.
Proof.
  intros Hr Hs (record & Hn & Hg).
  apply normalize_inv in Hn as (n' & Hf & ->).
  rewrite dict_get_formSubmissions in Hg. injection Hg as ->.
  destruct (String.eqb_spec s EmptyString) as [->|Hne].
  { rewrite form_submissions_blank in Hf; [by injection Hf as <-|]. right. by right. }
  destruct (form_submissions_finite _ _ _ Hr Hne Hf) as (neg & m & e & Hx & Hi).
  pose proof (float_from_string_finite _ _ _ _ Hx) as Hm.
  apply (float_from_string_input not_minus) in Hx as (t & Ht & Hp); [|done..].
  apply ascii_strtod_needs in Ht as [_ Hneg].
  destruct neg.
  - destruct (Hneg eq_refl) as [r ->]. specialize (Hp Hs). done.
  - cbn in Hi. injection Hi as <-.
    case_match; [apply Z.mul_nonneg_nonneg; [done|apply Z.pow_nonneg; lia]|].
    apply Z.div_pos; [done|apply Z.pow_pos_nonneg; lia].
Qed.

(** ** Blanks around a number *)

Lemma space_facts c :
  Py_ISSPACE c = true ->
  (code c <? 127)%Z = true /\ (code c <? 128)%Z = true /\
  Ascii.eqb c "_" = false /\ is_digit c = false.
Proof. destruct c as [[] [] [] [] [] [] [] []]; vm_compute; intuition congruence. Qed.

Section Blanks.
Context (a b : string).
Context (Ha : string_forall Py_ISSPACE a = true) (Hb : string_forall Py_ISSPACE b = true).

Lemma lstrip_blank : lstrip b = EmptyString.
Proof.
  revert Hb. induction b as [|c r IH]; [done|]. cbn.
  rewrite andb_true_iff. intros [-> Hr]. auto.
Qed.

Lemma rstrip_all_blank : rstrip_all b = EmptyString.
Proof.
  revert Hb. induction b as [|c r IH]; [done|]. cbn.
  rewrite andb_true_iff. intros [-> Hr]. by rewrite IH.
Qed.

Lemma lstrip_app_blank_l x : lstrip (a +:+ x) = lstrip x.
Proof.
  revert Ha. induction a as [|c r IH]; [done|]. cbn [string_forall].
  rewrite andb_true_iff. intros [Hc Hr]. rewrite append_String. cbn. rewrite Hc. auto.
Qed.

Lemma lstrip_app_blank_r x :
  lstrip (x +:+ b) =
  match lstrip x with EmptyString => EmptyString | y => y +:+ b end.
Proof.
  induction x as [|c r IH]; [by rewrite append_nil_l, lstrip_blank|].
  rewrite append_String. cbn. destruct (Py_ISSPACE c); [apply IH|done].
Qed.

Lemma rstrip_all_app_blank x : rstrip_all (x +:+ b) = rstrip_all x.
Proof.
  induction x as [|c r IH]; [by rewrite append_nil_l, rstrip_all_blank|].
  rewrite append_String. cbn. by rewrite IH.
Qed.

Lemma rstrip_app_blank y : y <> EmptyString -> rstrip (y +:+ b) = rstrip y.
Proof.
  destruct y as [|c r]; [done|]. intros _. rewrite append_String. cbn.
  by rewrite rstrip_all_app_blank.
Qed.

Lemma inner_blanks x :
  float_from_string_inner (a +:+ x +:+ b) = float_from_string_inner x.
Proof.
  unfold float_from_string_inner.
  rewrite lstrip_app_blank_l, lstrip_app_blank_r.
  destruct (lstrip x) as [|c r] eqn:E; [done|].
  by rewrite rstrip_app_blank.
Qed.

Lemma has_underscore_app x y :
  has_underscore (x +:+ y) = has_underscore x || has_underscore y.
Proof.
  induction x as [|c r IH]; [done|]. rewrite append_String. cbn.
  by rewrite IH, orb_assoc.
Qed.

Lemma has_underscore_blank : has_underscore b = false.
Proof.
  revert Hb. induction b as [|c r IH]; [done|]. cbn.
  rewrite andb_true_iff. intros [Hc Hr].
  destruct (space_facts c Hc) as (_ & _ & -> & _). auto.
Qed.
End Blanks.

Lemma drop_underscores_prev x prev1 prev2 :
  is_digit prev1 = false -> Ascii.eqb prev1 "_" = false ->
  is_digit prev2 = false -> Ascii.eqb prev2 "_" = false ->
  drop_underscores prev1 x = drop_underscores prev2 x.
Proof.
  intros H1 H1' H2 H2'. destruct x as [|c r]; cbn; by rewrite ?H1, ?H1', ?H2, ?H2'.
Qed.

Lemma drop_underscores_blank b : forall prev,
  string_forall Py_ISSPACE b = true -> Ascii.eqb prev "_" = false ->
  drop_underscores prev b = Some b.
Proof.
  induction b as [|c r IH]; intros prev; cbn; [by intros _ ->|].
  rewrite andb_true_iff. intros [Hc Hr] ->.
  destruct (space_facts c Hc) as (_ & _ & Hu & _). rewrite Hu. cbn.
  by rewrite IH.
Qed.

Lemma drop_underscores_app_blank_l a : forall prev x,
  string_forall Py_ISSPACE a = true ->
  is_digit prev = false -> Ascii.eqb prev "_" = false ->
  drop_underscores prev (a +:+ x) = (fun y => a +:+ y) <$> drop_underscores prev x.
Proof.
  induction a as [|c r IH]; intros prev x Ha Hp Hp'.
  - rewrite append_nil_l. by destruct (drop_underscores prev x).
  - cbn [string_forall] in Ha. apply andb_true_iff in Ha as [Hc Hr].
    destruct (space_facts c Hc) as (_ & _ & Hu & Hd).
    rewrite append_String. cbn [drop_underscores]. rewrite Hu, Hp'. cbn.
    rewrite (IH c x Hr Hd Hu).
    rewrite (drop_underscores_prev x c prev) by done.
    by destruct (drop_underscores prev x).
Qed.

Lemma drop_underscores_app_blank_r b x : forall prev,
  string_forall Py_ISSPACE b = true ->
  drop_underscores prev (x +:+ b) = (fun y => y +:+ b) <$> drop_underscores prev x.
Proof.
  intros prev Hb. revert prev. induction x as [|c r IH]; intros prev.
  - rewrite append_nil_l. cbn [drop_underscores].
    destruct (Ascii.eqb prev "_") eqn:Hp.
    + destruct b as [|c r]; [by cbn; rewrite Hp|].
      cbn [string_forall] in Hb. apply andb_true_iff in Hb as [Hc Hr].
      destruct (space_facts c Hc) as (_ & _ & Hu & Hd).
      cbn. by rewrite Hu, Hp, Hd.
    + by rewrite drop_underscores_blank.
  - rewrite append_String. cbn [drop_underscores].
    destruct (Ascii.eqb c "_").
    + destruct (is_digit prev); [apply IH|done].
    + destruct (Ascii.eqb prev "_" && negb (is_digit c)); [done|].
      rewrite IH. by destruct (drop_underscores c r).
Qed.

(** The parser's answer on a text does not change with blanks put
    before and after it. *)
Lemma float_from_string_blanks a b s :
  string_forall Py_ISSPACE a = true -> string_forall Py_ISSPACE b = true ->
  float_from_string (a +:+ s +:+ b) = float_from_string s.
Proof.
  intros Ha Hb.
  assert (Hpost : forall u b', string_forall Py_ISSPACE b' = true ->
    (if has_underscore (a +:+ u +:+ b') then
       match drop_underscores "000" (a +:+ u +:+ b') with
       | Some dup => float_from_string_inner dup
       | None => Raise ValueError
       end
     else float_from_string_inner (a +:+ u +:+ b')) =
    (if has_underscore u then
       match drop_underscores "000" u with
       | Some dup => float_from_string_inner dup
       | None => Raise ValueError
       end
     else float_from_string_inner u)).
  { intros u b' Hb'.
    rewrite !has_underscore_app, (has_underscore_blank a Ha), (has_underscore_blank b' Hb').
    rewrite orb_false_r. cbn [orb].
    destruct (has_underscore u); [|by apply inner_blanks].
    rewrite drop_underscores_app_blank_l, drop_underscores_app_blank_r by done.
    destruct (drop_underscores "000" u) as [dup|]; [|done]. cbn.
    by apply inner_blanks. }
  assert (Hasc : forall x, string_forall Py_ISSPACE x = true -> is_ascii x = true).
  { induction x as [|c r IH]; [done|]. cbn. rewrite andb_true_iff. intros [Hc Hr].
    destruct (space_facts c Hc) as (_ & -> & _). auto. }
  assert (Happ : forall x y, is_ascii (x +:+ y) = is_ascii x && is_ascii y).
  { induction x as [|c r IH]; intros y; [done|]. rewrite append_String. cbn.
    by rewrite IH, andb_assoc. }
  unfold float_from_string, transform_decimal_and_space.
  rewrite !Happ, (Hasc a Ha), (Hasc b Hb), andb_true_r. cbn [andb].
  destruct (is_ascii s); [by apply Hpost|].
  assert (Hta : forall x, transform_chars (a +:+ x) = a +:+ transform_chars x).
  { clear -Ha. intros x. induction a as [|c r IH]; [done|].
    cbn [string_forall] in Ha. apply andb_true_iff in Ha as [Hc Hr].
    rewrite !append_String. cbn [transform_chars].
    destruct (space_facts c Hc) as (-> & _). by rewrite IH. }
  assert (Htb : exists b', string_forall Py_ISSPACE b' = true /\
            transform_chars (s +:+ b) = transform_chars s +:+ b').
  { clear -Hb. induction s as [|c r IH].
    - exists b. split; [done|]. rewrite !append_nil_l.
      induction b as [|c r IH]; [done|]. cbn [string_forall] in Hb.
      apply andb_true_iff in Hb as [Hc Hr]. cbn [transform_chars].
      destruct (space_facts c Hc) as (-> & _). by rewrite IH.
    - destruct IH as (b' & Hb' & IH). rewrite append_String. cbn [transform_chars].
      destruct (code c <? 127)%Z; [exists b'; by rewrite IH|].
      destruct (Py_UNICODE_ISSPACE c); [exists b'; by rewrite IH|].
      exists EmptyString. by rewrite append_nil_r. }
  destruct Htb as (b' & Hb' & Htb). rewrite Hta, Htb. by apply Hpost.
Qed.

Lemma record_of_insert_count row c n :
  record_of (<["Number of Form Submissions" := c]> row) n = record_of row n.
Proof.
  unfold record_of, text_field, get. by rewrite !lookup_insert_ne by done.
Qed.

(** X: blanks before and after the text of the "Number of Form
    Submissions" cell change nothing, as long as the text itself is not
    empty. *)
Theorem formSubmissions_ignores_blanks row s a b :
  s <> EmptyString ->
  string_forall Py_ISSPACE a = true -> string_forall Py_ISSPACE b = true ->
  normalize (<["Number of Form Submissions" := Text (a +:+ s +:+ b)]> row) =
  normalize (<["Number of Form Submissions" := Text s]> row).
Proof.
  intros Hs Ha Hb.
  assert (Hf : form_submissions (<["Number of Form Submissions" := Text (a +:+ s +:+ b)]> row) =
               form_submissions (<["Number of Form Submissions" := Text s]> row)).
  { rewrite (form_submissions_text _ (a +:+ s +:+ b)), (form_submissions_text _ s);
      try apply lookup_insert_eq; try done.
    - unfold int_float, py_float. by rewrite float_from_string_blanks.
    - destruct a; [|done]. by destruct s. }
  rewrite !normalize_unfold, Hf. clear Hf.
  destruct (form_submissions _); [|done]. by rewrite !record_of_insert_count.
Qed.

(** X: a cell of blanks only is not an empty cell: it raises ValueError
    where the empty cell gives 0. *)
Theorem formSubmissions_blank_text_raises row s :
  row !! "Number of Form Submissions" = Some (Text s) -> s <> EmptyString ->
  string_forall Py_ISSPACE s = true ->
  normalize row = Raise ValueError.
Proof.
  intros Hr Hne Hs. apply normalize_raise.
  rewrite (form_submissions_text _ _ Hr Hne). unfold int_float, py_float.
  pose proof (float_from_string_blanks s EmptyString EmptyString Hs eq_refl) as H.
  rewrite !append_nil_r in H. by rewrite H.
Qed.

(** ** Dates written loosely *)

Lemma space_cases c :
  Py_UNICODE_ISSPACE c = true ->
  c ∈ ["009"; "010"; "011"; "012"; "013"; "028"; "029"; "030"; "031"; " ";
       "133"; "160"]%char.
Proof.
  destruct c as [[] [] [] [] [] [] [] []]; vm_compute; try congruence; intros _;
    repeat first [apply list_elem_of_here | apply list_elem_of_further].
Qed.

Ltac each_space c H :=
  apply space_cases in H;
  repeat (apply elem_of_cons in H as [->|H]);
  [..|by apply elem_of_nil in H].

Section Loose.
Context {R : Type}.
Implicit Types (k : string -> string -> groups -> option R).

Lemma match_more_spaces p w : forall m c rest (k : string -> string -> option R) x,
  string_forall p w = true -> p c = false ->
  k (m +:+ w) (String c rest) = Some x ->
  match_more p m (w +:+ String c rest) k = Some x.
Proof.
  induction w as [|a w IH]; intros m c rest k x Hw Hc Hk.
  - rewrite append_nil_l. cbn [match_more]. rewrite Hc. by rewrite append_nil_r in Hk.
  - cbn [string_forall] in Hw. apply andb_true_iff in Hw as [Ha Hw].
    rewrite append_String. cbn [match_more]. rewrite Ha.
    rewrite (IH _ c rest k x Hw Hc); [done|].
    by rewrite append_assoc.
Qed.

Lemma rmatch_spaces c w n pad rest g k x :
  Py_UNICODE_ISSPACE c = true -> string_forall Py_UNICODE_ISSPACE w = true ->
  (0 <= n <= 99)%Z ->
  k (String c w) (two_digits pad n +:+ rest) g = Some x ->
  rmatch (Plus Py_UNICODE_ISSPACE) (String c w +:+ two_digits pad n +:+ rest) g k = Some x.
Proof.
  intros Hc Hw Hn Hk.
  assert (Hd : exists a r, two_digits pad n = String a r /\ Py_UNICODE_ISSPACE a = false).
  { destruct pad; cbn [two_digits].
    - pose proof (pad2_ok_all n Hn) as H. unfold pad2_ok in H.
      destruct (zero_pad 2 n) as [|a [|b [|]]]; try done.
      rewrite !andb_true_iff in H. destruct H as [[Ha _] _].
      exists a, (String b EmptyString). split; [done|].
      destruct a as [[] [] [] [] [] [] [] []]; vm_compute in Ha |- *; congruence.
    - destruct (string_of_Z_digits n) as (d & Hd & _ & ->).
      replace (n <? 0)%Z with false by (symmetry; apply Z.ltb_ge; lia).
      rewrite append_nil_l. pose proof (string_of_uint_digits d) as Hdig.
      destruct d; try done; cbn in Hdig |- *; eauto. }
  destruct Hd as (a & r & Ha & Hsp). rewrite Ha in *.
  rewrite !append_String. cbn [rmatch]. rewrite Hc.
  apply match_more_spaces; [done..|]. by rewrite append_String in Hk.
Qed.

Lemma rmatch_m_loose pad n rest g k x :
  (1 <= n <= 12)%Z ->
  k (two_digits pad n) (String "-" rest) (("m", two_digits pad n) :: g) = Some x ->
  rmatch re_m (two_digits pad n +:+ String "-" rest) g k = Some x.
Proof.
  intros Hn Hk. destruct pad; enumerate n 1%Z 12%Z;
    vm_compute in Hk |- *; by rewrite Hk.
Qed.

Lemma rmatch_H_loose pad n rest g k x :
  (0 <= n <= 23)%Z ->
  k (two_digits pad n) (String ":" rest) (("H", two_digits pad n) :: g) = Some x ->
  rmatch re_H (two_digits pad n +:+ String ":" rest) g k = Some x.
Proof.
  intros Hn Hk. destruct pad; enumerate n 0%Z 24%Z;
    vm_compute in Hk |- *; by rewrite Hk.
Qed.

Lemma rmatch_M_loose pad n g k x :
  (0 <= n <= 59)%Z ->
  k (two_digits pad n) EmptyString (("M", two_digits pad n) :: g) = Some x ->
  rmatch re_M (two_digits pad n) g k = Some x.
Proof.
  intros Hn Hk. destruct pad; enumerate n 0%Z 60%Z;
    vm_compute in Hk |- *; by rewrite Hk.
Qed.

Lemma rmatch_d_loose pad n c rest g k x :
  (1 <= n <= 31)%Z -> Py_UNICODE_ISSPACE c = true ->
  k (two_digits pad n) (String c rest) (("d", two_digits pad n) :: g) = Some x ->
  rmatch re_d (two_digits pad n +:+ String c rest) g k = Some x.
Proof.
  intros Hn Hc Hk. each_space c Hc; destruct pad; enumerate n 1%Z 31%Z;
    vm_compute in Hk |- *; by rewrite Hk.
Qed.
End Loose.

Lemma int_of_group_two_digits pad n :
  (0 <= n <= 99)%Z -> int_of_group (two_digits pad n) = n.
Proof.
  intros Hn. destruct pad; [by apply int_of_group_pad2|]. cbn [two_digits].
  apply Z.eqb_eq.
  apply (forall_range (fun n => (int_of_group (string_of_Z n) =? n)%Z) 0 100);
    [by vm_compute|lia].
Qed.

Lemma strptime_loose y mo d h mi pm pd ph pmi c w :
  check_date_fields y mo d = true -> check_time_fields h mi 0 = true ->
  Py_UNICODE_ISSPACE c = true -> string_forall Py_UNICODE_ISSPACE w = true ->
  strptime (VStr (zero_pad 4 y +:+ "-" +:+ two_digits pm mo +:+ "-" +:+ two_digits pd d
                  +:+ String c w +:+ two_digits ph h +:+ ":" +:+ two_digits pmi mi)) =
  Ok {| year := y; month := mo; day := d; hour := h; minute := mi; second := 0 |}.
Proof.
  intros Hd Ht Hc Hw.
  destruct (check_date_fields_range _ _ _ Hd) as (Hy & Hmo & Hdd).
  destruct (check_time_fields_range _ _ _ Ht) as (Hh & Hmi & _).
  unfold strptime.
  assert (Hm : re_match format_regex
    (zero_pad 4 y +:+ "-" +:+ two_digits pm mo +:+ "-" +:+ two_digits pd d
       +:+ String c w +:+ two_digits ph h +:+ ":" +:+ two_digits pmi mi) =
    Some ([("M", two_digits pmi mi); ("H", two_digits ph h); ("d", two_digits pd d);
           ("m", two_digits pm mo); ("Y", zero_pad 4 y)], EmptyString)).
  { unfold re_match, format_regex. cbn [seq].
    rewrite !append_String, !append_nil_l.
    rewrite <- rmatch_Seq, rmatch_Y by lia. cbv beta.
    rewrite <- rmatch_Seq, rmatch_Chr. cbv beta.
    rewrite <- rmatch_Seq. eapply rmatch_m_loose; [done|]. cbv beta.
    rewrite <- rmatch_Seq, rmatch_Chr. cbv beta.
    rewrite <- rmatch_Seq. eapply rmatch_d_loose; [done|done|]. cbv beta.
    rewrite <- rmatch_Seq.
    rewrite <- (append_String c w). eapply rmatch_spaces; [done|done|lia|]. cbv beta.
    rewrite <- rmatch_Seq. eapply rmatch_H_loose; [done|]. cbv beta.
    rewrite <- rmatch_Seq, rmatch_Chr. cbv beta.
    eapply rmatch_M_loose; [done|]. reflexivity. }
  rewrite Hm. cbn [group String.eqb Ascii.eqb Bool.eqb].
  rewrite int_of_group_pad4, !int_of_group_two_digits by lia.
  by rewrite Hd, Ht.
Qed.

(** X: the date is read when month, day, hour and minute are written
    with or without a leading zero and when any run of white space stands
    between date and time; createDate is the zero-padded ISO text in
    every case. *)
Theorem createDate_loose row record y mo d h mi pm pd ph pmi c w :
  normalize row = Ok record ->
  check_date_fields y mo d = true -> check_time_fields h mi 0 = true ->
  Py_UNICODE_ISSPACE c = true -> string_forall Py_UNICODE_ISSPACE w = true ->
  row !! "Create Date" =
    Some (Text (zero_pad 4 y +:+ "-" +:+ two_digits pm mo +:+ "-" +:+ two_digits pd d
                +:+ String c w +:+ two_digits ph h +:+ ":" +:+ two_digits pmi mi)) ->
  dict_get record "createDate" = Some (VStr (iso_text y mo d h mi)).
Proof.
  intros Hn Hd Ht Hc Hw Hr. apply normalize_inv in Hn as (n & _ & ->).
  rewrite dict_get_createDate, (get_Text _ _ _ _ Hr), strptime_loose by done.
  by rewrite isoformat_iso_text.
Qed.

(** * The further properties at concrete rows *)

(** Record 42 has the eighteen fields. *)
Lemma record_schema_witness :
  map fst (record_of sample_row 2) = record_keys /\
  NoDup (map fst (record_of sample_row 2)) /\
  (forall key v, dict_get (record_of sample_row 2) key = Some v ->
     match v with
     | VStr _ => key <> "isComplete" /\ key <> "formSubmissions"
     | VBool _ => key = "isComplete"
     | VInt _ => key = "formSubmissions"
     | VNone => False
     end).
Proof. apply (record_schema sample_row). vm_compute. reflexivity. Defined.

(** A "Notes" column changes nothing. *)
Lemma normalize_reads_columns_witness :
  normalize sample_row = normalize (<["Notes" := Text "call back"]> sample_row).
Proof.
  apply normalize_reads_columns. intros key Hk.
  unfold columns, text_fields in Hk. cbn [map snd app] in Hk.
  rewrite !elem_of_cons, elem_of_nil in Hk.
  repeat destruct Hk as [->|Hk]; try (vm_compute; reflexivity). destruct Hk.
Defined.

(** Record 42 has no "Email" column; a [None] cell there is the same. *)
Lemma blank_cells_alike_witness :
  normalize (<["Email" := Missing]> sample_row) = normalize sample_row /\
  normalize (delete "Email" sample_row) = normalize sample_row.
Proof.
  apply blank_cells_alike.
  - left. vm_compute. reflexivity.
  - left. reflexivity.
Defined.

(** Record 42 is complete, and has its company and its industry. *)
Lemma isComplete_agrees_with_record_witness :
  exists b co ind,
    dict_get (record_of sample_row 2) "isComplete" = Some (VBool b) /\
    dict_get (record_of sample_row 2) "company" = Some (VStr co) /\
    dict_get (record_of sample_row 2) "industry" = Some (VStr ind) /\
    (b = true <-> co <> EmptyString /\ ind <> EmptyString).
Proof. apply (isComplete_agrees_with_record sample_row). vm_compute. reflexivity. Defined.

(** A date written with slashes. *)
Lemma createDate_foreign_character_witness :
  dict_get (record_of (<["Create Date" := Text "2023/01/01 09:00"]> sample_row) 2)
    "createDate" = Some (VStr EmptyString).
Proof.
  apply (createDate_foreign_character
           (<["Create Date" := Text "2023/01/01 09:00"]> sample_row) _ "2023/01/01 09:00");
    vm_compute; reflexivity.
Defined.

(** The createDate of record 42 put back into its row. *)
Lemma createDate_not_idempotent_witness :
  dict_get (record_of (<["Create Date" := Text "2023-01-01T09:00:00Z"]> sample_row) 2)
    "createDate" = Some (VStr EmptyString).
Proof.
  apply (createDate_not_idempotent sample_row (record_of sample_row 2)
           "2023-01-01T09:00:00Z" sample_row);
    vm_compute; reflexivity.
Defined.

(** Record 42, a row that raises, record 42 again. *)
Lemma main_first_failure_witness :
  main ([sample_row] ++ {[ "Number of Form Submissions" := Text "n/a" ]} :: [sample_row]) =
  Raise ValueError.
Proof.
  apply main_first_failure.
  - constructor; [|constructor].
    exists (record_of sample_row 2). vm_compute. reflexivity.
  - vm_compute. reflexivity.
Defined.

(** Record 42 with an accented message and a quote in it. *)
Lemma output_is_ascii_witness :
  string_forall output_char
    (json_dumps [record_of (<["Message" := Text (String "233" (String quote "x"))]> sample_row) 2])
  = true.
Proof.
  apply (output_is_ascii [<["Message" := Text (String "233" (String quote "x"))]> sample_row]).
  vm_compute. reflexivity.
Defined.

(** Two rows: forty-one line feeds, forty-two lines. *)
Lemma output_lines_witness :
  count_char "010" (json_dumps [record_of sample_row 2; record_of ∅ 0]) = 20 * 2 + 1.
Proof.
  apply (output_lines [sample_row; ∅]); [vm_compute; reflexivity|discriminate].
Defined.

(** The largest count kept: 2^53 - 1, written with two decimals. *)
Lemma formSubmissions_whole_numbers_witness :
  yields_formSubmissions
    (<["Number of Form Submissions" := Text "9007199254740991.00"]> sample_row)
    9007199254740991.
Proof.
  apply (formSubmissions_whole_numbers _ 9007199254740991 2).
  - vm_compute. split; reflexivity.
  - right. vm_compute. reflexivity.
Defined.

(** 5 March 2024, 7:05, written without zeros and with a tab and a blank. *)
Lemma createDate_loose_witness :
  dict_get
    (record_of (<["Create Date" := Text (String "2" (String "0" (String "2" (String "4"
       (String "-" (String "3" (String "-" (String "5" (String "009" (String " "
       (String "7" (String ":" (String "5" EmptyString)))))))))))))]> sample_row) 2)
    "createDate" = Some (VStr (iso_text 2024 3 5 7 5)).
Proof.
  apply (createDate_loose
           (<["Create Date" := Text (String "2" (String "0" (String "2" (String "4"
              (String "-" (String "3" (String "-" (String "5" (String "009" (String " "
              (String "7" (String ":" (String "5" EmptyString)))))))))))))]> sample_row)
           _ 2024 3 5 7 5 false false false false "009"%char " ");
    vm_compute; reflexivity.
Defined.

(** A cell that says n/a. *)
Lemma formSubmissions_needs_digit_witness :
  exists e, normalize {[ "Number of Form Submissions" := Text "n/a" ]} = Raise e.
Proof.
  apply (formSubmissions_needs_digit _ "n/a");
    [vm_compute; reflexivity|discriminate|reflexivity|reflexivity].
Defined.

(** Record 42 has two submissions. *)
Lemma formSubmissions_negative_needs_minus_witness : (0 <= 2)%Z.
Proof.
  apply (formSubmissions_negative_needs_minus sample_row "2").
  - vm_compute. reflexivity.
  - reflexivity.
  - exists (record_of sample_row 2). split; vm_compute; reflexivity.
Defined.

(** Seven, with a blank before and a tab after. *)
Lemma formSubmissions_ignores_blanks_witness :
  normalize (<["Number of Form Submissions" := Text (" " +:+ "7" +:+ String "009" EmptyString)]>
               sample_row) =
  normalize (<["Number of Form Submissions" := Text "7"]> sample_row).
Proof.
  apply formSubmissions_ignores_blanks; [discriminate|reflexivity|reflexivity].
Defined.

(** A cell of two blanks. *)
Lemma formSubmissions_blank_text_raises_witness :
  normalize {[ "Number of Form Submissions" := Text "  " ]} = Raise ValueError.
Proof.
  apply (formSubmissions_blank_text_raises _ "  ");
    [vm_compute; reflexivity|discriminate|reflexivity].
Defined.
